(** * check-for-tag: a shallow embedding of [src/checkForTagRule.ts]

    The rule walks the syntax tree of one source file and reports every
    identifier usage whose resolved declaration carries one of the
    configured documentation tags.

    Modelling decisions.
    - A [ts.Node] is reached in two ways in the source: downwards through
      [ts.forEachChild] and upwards through [node.parent].  The tree that is
      walked is [Node]; a node together with its chain of parents is a
      [NodeRef].  Only a source file has no parent, which is what the
      TypeScript declarations say ([parent: Node]).
    - Object identity ([parent.name === identifier]) is equality of the
      node identifiers [nid].
    - The type checker and the tsutils helpers that are not part of this
      repository are records of functions ([TypeChecker], [TsUtils]).
    - The module-level variable [options] is the record [Options], passed
      explicitly.
    - [ctx.addFailureAtNode] appends to the list of failures of the walk
      context; the walk is written in state-passing style. *)

From Stdlib Require Import List String Ascii ZArith Bool Lia.
Import ListNotations.
Open Scope string_scope.
Set Warnings "-register-all".

(** ** Syntax tree *)

(** The members of [ts.SyntaxKind] that the rule or its helpers name; every
    other member is [OtherKind n].  [ParameterKind] is
    [ts.SyntaxKind.Parameter], whose name is reserved here. *)
Inductive SyntaxKind : Type :=
| SourceFile
| Identifier
| ClassDeclaration
| ClassExpression
| InterfaceDeclaration
| TypeParameter
| FunctionExpression
| FunctionDeclaration
| LabeledStatement
| JsxAttribute
| MethodDeclaration
| MethodSignature
| PropertySignature
| TypeAliasDeclaration
| GetAccessor
| SetAccessor
| EnumDeclaration
| ModuleDeclaration
| VariableDeclaration
| ParameterKind
| PropertyDeclaration
| EnumMember
| ImportEqualsDeclaration
| PropertyAssignment
| BindingElement
| ImportDeclaration
| ExportDeclaration
| ExportAssignment
| PropertyAccessExpression
| TaggedTemplateExpression
| CallExpression
| NewExpression
| ShorthandPropertyAssignment
| VariableDeclarationList
| ObjectLiteralExpression
| OtherKind (n : nat).

(** The fields of a node that the rule reads.  [name], [propertyName],
    [expression] and [tag] hold the identity of the child in that slot, or
    [None] where the slot is undefined. *)
Record NodeInfo : Type := mkInfo {
  nid : nat;
  kind : SyntaxKind;
  text : string;
  name : option nat;
  propertyName : option nat;
  expression : option nat;
  tag : option nat
}.

(** A node as [ts.forEachChild] sees it: its fields and its children in
    source order. *)
Inductive Node : Type :=
| MkNode (info : NodeInfo) (children : list Node).

Record SourceFileNode : Type := mkSourceFile {
  fileName : string;
  statements : list Node
}.

(** A node as [node.parent] sees it: the node and its parents up to the
    source file. *)
Inductive NodeRef : Type :=
| SourceFileRef (file : string)
| Inner (self : NodeInfo) (parent : NodeRef).

Definition kindOf (r : NodeRef) : SyntaxKind :=
  match r with
  | SourceFileRef _ => SourceFile
  | Inner i _ => kind i
  end.

(** [slot === node] *)
Definition sameNode (slot : option nat) (node : NodeInfo) : bool :=
  match slot with
  | Some j => Nat.eqb j (nid node)
  | None => false
  end.

Definition isDefined {A : Type} (o : option A) : bool :=
  match o with Some _ => true | None => false end.

(** The proper ancestors of a node, nearest first. *)
Fixpoint ancestors (r : NodeRef) : list NodeRef :=
  match r with
  | SourceFileRef _ => []
  | Inner _ p => p :: ancestors p
  end.

(** ** Documentation, symbols and the services the rule consumes *)

Record JSDocTagInfo : Type := mkTagInfo {
  tagInfo_name : string;
  tagInfo_text : option string
}.

(** A tag node of a parsed documentation comment: [tag.tagName.text] and
    [tag.comment]. *)
Record JSDocTag : Type := mkJSDocTag {
  tagName : string;
  comment : option string
}.

Record JSDoc : Type := mkJSDoc {
  tags : option (list JSDocTag)
}.

(** [symbol_getJsDocTags] is [None] where the method itself is undefined
    (typescript before 2.3.0), as is [signature_getJsDocTags]. *)
Record Symbol : Type := mkSymbol {
  flags : Z;
  symbol_getJsDocTags : option (list JSDocTagInfo);
  declarations : option (list NodeRef)
}.

Record Signature : Type := mkSignature {
  signature_getJsDocTags : option (list JSDocTagInfo);
  declaration : option NodeRef
}.

Record TsType : Type := mkType {
  getProperty : string -> option Symbol
}.

Record TypeChecker : Type := mkChecker {
  getResolvedSignature : NodeRef -> option Signature;
  getTypeAtLocation : NodeRef -> TsType;
  getPropertySymbolOfDestructuringAssignment : NodeRef -> option Symbol;
  getSymbolAtLocation : NodeRef -> option Symbol;
  getAliasedSymbol : Symbol -> Symbol
}.

(** The helpers of tsutils whose result depends on more than the kind of
    the node. *)
Record TsUtils : Type := mkUtils {
  isReassignmentTarget : NodeRef -> bool;
  getDeclarationOfBindingElement : NodeRef -> NodeRef;
  getJsDoc : NodeRef -> list JSDoc
}.

(** [ts.SymbolFlags.Alias] *)
Definition SymbolFlags_Alias : Z := 2097152.

(** [isSymbolFlagSet(symbol, flag)] is [(symbol.flags & flag) !== 0]. *)
Definition isSymbolFlagSet (symbol : Symbol) (flag : Z) : bool :=
  negb (Z.eqb (Z.land (flags symbol) flag) 0).

Record Options : Type := mkOptions {
  opt_tags : list string
}.

(** [array.includes(s)] on an array of strings *)
Definition includes (l : list string) (s : string) : bool :=
  existsb (String.eqb s) l.

(** ** Declaration sites *)

Section Classifier.

Variable utils : TsUtils.

(** [isDeclaration(identifier)]; [parent] is [identifier.parent]. *)
Definition isDeclaration (identifier : NodeInfo) (parent : NodeRef) : bool :=
  match parent with
  | SourceFileRef _ => false
  | Inner p grand =>
    match kind p with
    | ClassDeclaration
    | ClassExpression
    | InterfaceDeclaration
    | TypeParameter
    | FunctionExpression
    | FunctionDeclaration
    | LabeledStatement
    | JsxAttribute
    | MethodDeclaration
    | MethodSignature
    | PropertySignature
    | TypeAliasDeclaration
    | GetAccessor
    | SetAccessor
    | EnumDeclaration
    | ModuleDeclaration => true
    | VariableDeclaration
    | ParameterKind
    | PropertyDeclaration
    | EnumMember
    | ImportEqualsDeclaration => sameNode (name p) identifier
    | PropertyAssignment =>
      sameNode (name p) identifier && negb (isReassignmentTarget utils grand)
    | BindingElement =>
      sameNode (name p) identifier && isDefined (propertyName p)
    | _ => false
    end
  end.

(** The classification in the words of the specification.  The named
    entities: class, interface, function, method, accessor, type alias,
    enum, namespace/module, label, attribute, type parameter. *)
Definition isNamedEntity (k : SyntaxKind) : bool :=
  match k with
  | ClassDeclaration | ClassExpression
  | InterfaceDeclaration
  | FunctionExpression | FunctionDeclaration
  | MethodDeclaration | MethodSignature
  | GetAccessor | SetAccessor
  | TypeAliasDeclaration
  | EnumDeclaration
  | ModuleDeclaration
  | LabeledStatement
  | JsxAttribute
  | TypeParameter => true
  | _ => false
  end.

(** variable, parameter, field, enum member, import alias *)
Definition isBindingNode (k : SyntaxKind) : bool :=
  match k with
  | VariableDeclaration | ParameterKind | PropertyDeclaration | EnumMember
  | ImportEqualsDeclaration => true
  | _ => false
  end.

Definition declarationSiteWith (always : SyntaxKind -> bool)
    (identifier : NodeInfo) (parent : NodeRef) : Prop :=
  match parent with
  | SourceFileRef _ => False
  | Inner p grand =>
    always (kind p) = true
    \/ (isBindingNode (kind p) = true /\ sameNode (name p) identifier = true)
    \/ (kind p = PropertyAssignment
        /\ sameNode (name p) identifier = true
        /\ isReassignmentTarget utils grand = false)
    \/ (kind p = BindingElement
        /\ sameNode (name p) identifier = true
        /\ propertyName p <> None)
  end.

Definition declarationSite_spec : NodeInfo -> NodeRef -> Prop :=
  declarationSiteWith isNamedEntity.

(** The same with the property signature among the named entities. *)
Definition isNamedEntityOrPropertySignature (k : SyntaxKind) : bool :=
  match k with
  | PropertySignature => true
  | _ => isNamedEntity k
  end.

Definition declarationSite_amended : NodeInfo -> NodeRef -> Prop :=
  declarationSiteWith isNamedEntityOrPropertySignature.

End Classifier.

(** ** The tag resolver *)

Section Resolver.

Variable options : Options.
Variable utils : TsUtils.
Variable tc : TypeChecker.

(** The first statement of [getCallExpresion]: where the parent is a
    property access whose name is the node, the node and its parent are
    replaced by the property access and its parent. *)
Definition unwindPropertyAccess (node : NodeInfo) (parent : NodeRef)
    : NodeInfo * NodeRef :=
  match parent with
  | Inner p grand =>
    match kind p with
    | PropertyAccessExpression =>
      if sameNode (name p) node then (p, grand) else (node, parent)
    | _ => (node, parent)
    end
  | SourceFileRef _ => (node, parent)
  end.

(** The returned expression of [getCallExpresion]. *)
Definition callLikeParent (node : NodeInfo) (parent : NodeRef)
    : option NodeRef :=
  match parent with
  | Inner q _ =>
    match kind q with
    | TaggedTemplateExpression => Some parent
    | CallExpression | NewExpression =>
      if sameNode (expression q) node then Some parent else None
    | _ => None
    end
  | SourceFileRef _ => None
  end.

(** [getCallExpresion(node)]; [parent] is [node.parent]. *)
Definition getCallExpresion (node : NodeInfo) (parent : NodeRef)
    : option NodeRef :=
  let (node', parent') := unwindPropertyAccess node parent in
  callLikeParent node' parent'.

(** [findUnwantedTagsTag(tags)] *)
Fixpoint findUnwantedTagsTag (tags : list JSDocTagInfo) : option string :=
  match tags with
  | [] => None
  | tag :: rest =>
    if includes (opt_tags options) (tagInfo_name tag)
    then Some (match tagInfo_text tag with None => "" | Some t => t end)
    else findUnwantedTagsTag rest
  end.

(** The inner loop of [getUnwantedTagsFromDeclaration], over the tags of
    one comment. *)
Fixpoint findInCommentTags (l : list JSDocTag) : option string :=
  match l with
  | [] => None
  | tag :: rest =>
    if includes (opt_tags options) (tagName tag)
    then Some (match comment tag with None => "" | Some c => c end)
    else findInCommentTags rest
  end.

(** The outer loop of [getUnwantedTagsFromDeclaration], over the
    comments. *)
Fixpoint findInComments (comments : list JSDoc) : option string :=
  match comments with
  | [] => None
  | c :: rest =>
    match tags c with
    | None => findInComments rest
    | Some l =>
      match findInCommentTags l with
      | Some r => Some r
      | None => findInComments rest
      end
    end
  end.

(** [getUnwantedTagsFromDeclaration(declaration)] *)
Definition getUnwantedTagsFromDeclaration (d : NodeRef) : option string :=
  findInComments (getJsDoc utils d).

(** The three rewrites of the loop variable in
    [getUnwantedTagsFromDeclarations]. *)
Definition documentedNode (d : NodeRef) : NodeRef :=
  let d1 :=
    match kindOf d with
    | BindingElement => getDeclarationOfBindingElement utils d
    | _ => d
    end in
  let d2 :=
    match d1 with
    | Inner i p =>
      match kind i with VariableDeclaration => p | _ => d1 end
    | SourceFileRef _ => d1
    end in
  match d2 with
  | Inner i p =>
    match kind i with VariableDeclarationList => p | _ => d2 end
  | SourceFileRef _ => d2
  end.

Fixpoint scanDeclarations (ds : list NodeRef) : option string :=
  match ds with
  | [] => None
  | d :: rest =>
    match getUnwantedTagsFromDeclaration (documentedNode d) with
    | Some r => Some r
    | None => scanDeclarations rest
    end
  end.

(** [getUnwantedTagsFromDeclarations(declarations)] *)
Definition getUnwantedTagsFromDeclarations (ds : option (list NodeRef))
    : option string :=
  match ds with
  | None => None
  | Some l => scanDeclarations l
  end.

(** [getSymbolUnwantedTags(symbol)] *)
Definition getSymbolUnwantedTags (symbol : Symbol) : option string :=
  match symbol_getJsDocTags symbol with
  | Some l => findUnwantedTagsTag l
  | None => getUnwantedTagsFromDeclarations (declarations symbol)
  end.

(** [getSignatureUnwantedTags(signature)] *)
Definition getSignatureUnwantedTags (signature : option Signature)
    : option string :=
  match signature with
  | None => None
  | Some sg =>
    match signature_getJsDocTags sg with
    | Some l => findUnwantedTagsTag l
    | None =>
      match declaration sg with
      | None => None
      | Some d => getUnwantedTagsFromDeclaration d
      end
    end
  end.

(** [isFunctionOrMethod(declarations)] *)
Definition isFunctionOrMethod (ds : option (list NodeRef)) : bool :=
  match ds with
  | None | Some [] => false
  | Some (d :: _) =>
    match kindOf d with
    | MethodDeclaration | FunctionDeclaration | FunctionExpression
    | MethodSignature => true
    | _ => false
    end
  end.

(** The first half of [getUnwantedTags]: the tags of the resolved
    signature of the call the identifier is the target of. *)
Definition signaturePath (node : NodeInfo) (parent : NodeRef)
    : option string :=
  match getCallExpresion node parent with
  | Some callExpression =>
    getSignatureUnwantedTags (getResolvedSignature tc callExpression)
  | None => None
  end.

(** The symbol that [getUnwantedTags] looks up for the identifier, before
    aliases are followed. *)
Definition lookupSymbol (node : NodeInfo) (parent : NodeRef)
    : option Symbol :=
  let here := Inner node parent in
  match parent with
  | Inner p grand =>
    match kind p with
    | BindingElement => getProperty (getTypeAtLocation tc grand) (text node)
    | PropertyAssignment =>
      if sameNode (name p) node
      then getPropertySymbolOfDestructuringAssignment tc here
      else getSymbolAtLocation tc here
    | ShorthandPropertyAssignment =>
      if sameNode (name p) node && isReassignmentTarget utils here
      then getPropertySymbolOfDestructuringAssignment tc here
      else getSymbolAtLocation tc here
    | _ => getSymbolAtLocation tc here
    end
  | SourceFileRef _ => getSymbolAtLocation tc here
  end.

(** The alias step of [getUnwantedTags]. *)
Definition followAlias (symbol : option Symbol) : option Symbol :=
  match symbol with
  | Some s =>
    if isSymbolFlagSet s SymbolFlags_Alias
    then Some (getAliasedSymbol tc s)
    else Some s
  | None => None
  end.

(** The second half of [getUnwantedTags]. *)
Definition symbolPath (node : NodeInfo) (parent : NodeRef) : option string :=
  match followAlias (lookupSymbol node parent) with
  | None => None
  | Some symbol =>
    if isDefined (getCallExpresion node parent)
       && isFunctionOrMethod (declarations symbol)
    then None
    else getSymbolUnwantedTags symbol
  end.

(** [getUnwantedTags(node, tc)] *)
Definition getUnwantedTags (node : NodeInfo) (parent : NodeRef)
    : option string :=
  match signaturePath node parent with
  | Some result => Some result
  | None => symbolPath node parent
  end.

End Resolver.

(** ** Failure messages *)

(** The white space and line terminators of ECMAScript among the code
    units below 256: TAB, LF, VT, FF, CR, SP and NBSP. *)
Definition isWhiteSpace (c : ascii) : bool :=
  match nat_of_ascii c with
  | 9 | 10 | 11 | 12 | 13 | 32 | 160 => true
  | _ => false
  end.

Fixpoint trimStart (l : list ascii) : list ascii :=
  match l with
  | [] => []
  | c :: rest => if isWhiteSpace c then trimStart rest else l
  end.

(** [s.trim()] *)
Definition trim (s : string) : string :=
  string_of_list_ascii
    (rev (trimStart (rev (trimStart (list_ascii_of_string s))))).

(** A sequence of characters that does not start with white space. *)
Definition edgeClean (l : list ascii) : Prop :=
  match l with
  | [] => True
  | c :: _ => isWhiteSpace c = false
  end.

(** [Rule.FAILURE_STRING(name, message)] *)
Definition FAILURE_STRING (name message : string) : string :=
  "Found disallowed tag at " ++ name ++
  (if String.eqb message "" then "." else ": " ++ trim message).

(** ** Options *)

(** An element of the rule arguments: a boolean, a string or an array of
    strings. *)
Inductive RuleArgument : Type :=
| ArgBoolean (b : bool)
| ArgString (s : string)
| ArgArray (l : list string).

(** Iterating a string yields its characters. *)
Fixpoint characters (s : string) : list string :=
  match s with
  | EmptyString => []
  | String c rest => String c EmptyString :: characters rest
  end.

(** [parseOptions(args)].  [args] is [None] where it is undefined.  The
    result is [None] where [for ... of] meets a value that is not iterable
    (the boolean [true]). *)
Definition parseOptions (args : option (list RuleArgument)) : option Options :=
  match args with
  | None => Some (mkOptions [])
  | Some l =>
    match nth_error l 1 with
    | None => Some (mkOptions [])
    | Some (ArgBoolean false) => Some (mkOptions [])
    | Some (ArgBoolean true) => None
    | Some (ArgString "") => Some (mkOptions [])
    | Some (ArgString s) => Some (mkOptions (characters s))
    | Some (ArgArray a) => Some (mkOptions a)
    end
  end.

(** ** The walk *)

Record RuleFailure : Type := mkFailure {
  failure_node : NodeRef;
  failure_message : string
}.

Record WalkContext : Type := mkContext {
  sourceFile : SourceFileNode;
  failures : list RuleFailure
}.

(** [ctx.addFailureAtNode(node, message)] *)
Definition addFailureAtNode (ctx : WalkContext) (node : NodeRef)
    (message : string) : WalkContext :=
  mkContext (sourceFile ctx) (failures ctx ++ [mkFailure node message]).

(** [ts.forEachChild(node, cbNode)] over the children of [node]: the
    callback runs on each child in order until it returns a value other
    than undefined, which is then the result. *)
Definition forEachChild {R : Type}
    (cbNode : Node -> WalkContext -> option R * WalkContext)
    : list Node -> WalkContext -> option R * WalkContext :=
  fix each (cs : list Node) (ctx : WalkContext) :=
    match cs with
    | [] => (None, ctx)
    | c :: rest =>
      match cbNode c ctx with
      | (Some r, ctx') => (Some r, ctx')
      | (None, ctx') => each rest ctx'
      end
    end.

Section Walk.

Variable options : Options.
Variable utils : TsUtils.
Variable tc : TypeChecker.

(** The callback [cb] of [walk]; [parent] is [node.parent]. *)
Fixpoint cb (parent : NodeRef) (node : Node) (ctx : WalkContext)
    {struct node} : option unit * WalkContext :=
  match node with
  | MkNode i cs =>
    match kind i with
    | Identifier =>
      if negb (isDeclaration utils i parent)
      then
        match getUnwantedTags options utils tc i parent with
        | Some tags =>
          (None, addFailureAtNode ctx (Inner i parent)
                   (FAILURE_STRING (text i) tags))
        | None => (None, ctx)
        end
      else (None, ctx)
    | ImportDeclaration
    | ImportEqualsDeclaration
    | ExportDeclaration
    | ExportAssignment => (None, ctx)
    | _ => forEachChild (cb (Inner i parent)) cs ctx
    end
  end.

(** [walk(ctx, tc)] *)
Definition walk (ctx : WalkContext) : option unit * WalkContext :=
  forEachChild (cb (SourceFileRef (fileName (sourceFile ctx))))
    (statements (sourceFile ctx)) ctx.

(** [applyWithFunction(sourceFile, walk, options, tc)]: the failures of a
    fresh context after the walk. *)
Definition applyWithFunction (sf : SourceFileNode) : list RuleFailure :=
  failures (snd (walk (mkContext sf []))).

End Walk.

(** [Rule.applyWithProgram(sourceFile, program)], the rule arguments and
    the type checker of the program given. *)
Definition applyWithProgram (ruleArguments : option (list RuleArgument))
    (utils : TsUtils) (tc : TypeChecker) (sf : SourceFileNode)
    : option (list RuleFailure) :=
  match parseOptions ruleArguments with
  | Some options => Some (applyWithFunction options utils tc sf)
  | None => None
  end.

(** ** The nodes the walk reaches *)

(** The nodes on which the callback runs, in the order of the walk: a node,
    then the nodes reached below it unless it is an identifier or one of
    the import and export declarations. *)
Fixpoint visited (parent : NodeRef) (node : Node) {struct node}
    : list NodeRef :=
  match node with
  | MkNode i cs =>
    Inner i parent ::
    match kind i with
    | Identifier
    | ImportDeclaration
    | ImportEqualsDeclaration
    | ExportDeclaration
    | ExportAssignment => []
    | _ => flat_map (visited (Inner i parent)) cs
    end
  end.

Definition visitedInFile (sf : SourceFileNode) : list NodeRef :=
  flat_map (visited (SourceFileRef (fileName sf))) (statements sf).

(** What the walk reports for one reached node. *)
Definition report (options : Options) (utils : TsUtils) (tc : TypeChecker)
    (r : NodeRef) : list RuleFailure :=
  match r with
  | Inner i parent =>
    match kind i with
    | Identifier =>
      if isDeclaration utils i parent then []
      else
        match getUnwantedTags options utils tc i parent with
        | Some t => [mkFailure r (FAILURE_STRING (text i) t)]
        | None => []
        end
    | _ => []
    end
  | SourceFileRef _ => []
  end.

Definition isExcludedSubtree (k : SyntaxKind) : bool :=
  match k with
  | ImportDeclaration | ImportEqualsDeclaration | ExportDeclaration
  | ExportAssignment => true
  | _ => false
  end.

(** ** The match test, abstractly *)

(** The match test on an abstract tag: the two loops of the source differ
    only in the fields they read. *)
Section FirstMatch.

Variable T : Type.
Variable nameOf : T -> string.
Variable textOf : T -> option string.
Variable configured : list string.

Definition orEmpty (o : option string) : string :=
  match o with None => "" | Some t => t end.

Fixpoint firstMatch (l : list T) : option string :=
  match l with
  | [] => None
  | t :: rest =>
    if includes configured (nameOf t) then Some (orEmpty (textOf t))
    else firstMatch rest
  end.

End FirstMatch.

Arguments firstMatch {T} nameOf textOf configured l.

(** The tag nodes that [getUnwantedTagsFromDeclaration] runs over: those
    of every comment that has tags, in order. *)
Definition commentTags (comments : list JSDoc) : list JSDocTag :=
  flat_map (fun c => match tags c with Some l => l | None => [] end)
    comments.

(** ** Call targets and function declarations, in the words of the
    specification *)

(** [node] is the callee of the call or constructor expression [parent],
    or the tag of the tagged template [parent]. *)
Definition directCallee (node : NodeInfo) (parent : NodeRef) : bool :=
  match parent with
  | Inner q _ =>
    match kind q with
    | CallExpression | NewExpression => sameNode (expression q) node
    | TaggedTemplateExpression => sameNode (tag q) node
    | _ => false
    end
  | SourceFileRef _ => false
  end.

(** The expression the identifier is the call target of: its parent, or,
    where the identifier is the name of a property access, the parent of
    that property access. *)
Definition calleeOf (node : NodeInfo) (parent : NodeRef) : option NodeRef :=
  if directCallee node parent then Some parent
  else
    match parent with
    | Inner p grand =>
      match kind p with
      | PropertyAccessExpression =>
        if sameNode (name p) node && directCallee p grand
        then Some grand else None
      | _ => None
      end
    | SourceFileRef _ => None
    end.



(** The alias flag is bit 21 of the flags of a symbol. *)
Definition hasAliasFlag (symbol : Symbol) : bool :=
  Z.testbit (flags symbol) 21.

(** ** Derived notions for the properties of the walk and the resolver *)

(** The tree without what the walk does not enter: the children of
    identifiers and of import and export declarations. *)
Fixpoint prune (node : Node) : Node :=
  match node with
  | MkNode i cs =>
    MkNode i
      (match kind i with
       | Identifier
       | ImportDeclaration
       | ImportEqualsDeclaration
       | ExportDeclaration
       | ExportAssignment => []
       | _ => map prune cs
       end)
  end.

Definition pruneFile (sf : SourceFileNode) : SourceFileNode :=
  mkSourceFile (fileName sf) (map prune (statements sf)).

(** The number of identifier nodes of a tree. *)
Fixpoint countIdentifiers (node : Node) : nat :=
  match node with
  | MkNode i cs =>
    (match kind i with Identifier => 1 | _ => 0 end)
    + list_sum (map countIdentifiers cs)
  end.

(** The tag nodes of the comments of the declarations of a symbol, each
    declaration replaced by the node that carries its comment. *)
Definition declarationTags (utils : TsUtils) (ds : list NodeRef)
    : list JSDocTag :=
  flat_map (fun d => commentTags (getJsDoc utils (documentedNode utils d))) ds.

(** A tag node as the tag query of the language service presents it. *)
Definition tagInfoOfNode (t : JSDocTag) : JSDocTagInfo :=
  mkTagInfo (tagName t) (comment t).

(** The identities of the nodes of a tree. *)
Fixpoint allIds (node : Node) : list nat :=
  match node with
  | MkNode i cs => nid i :: flat_map allIds cs
  end.

(** The identity of a node that has a parent. *)
Definition refId (r : NodeRef) : nat :=
  match r with
  | Inner i _ => nid i
  | SourceFileRef _ => 0
  end.

(** A type checker with another answer to
    [getPropertySymbolOfDestructuringAssignment]. *)
Definition withPropertySymbol (tc : TypeChecker)
    (g : NodeRef -> option Symbol) : TypeChecker :=
  mkChecker (getResolvedSignature tc) (getTypeAtLocation tc) g
    (getSymbolAtLocation tc) (getAliasedSymbol tc).

Definition isCallLikeKind (k : SyntaxKind) : bool :=
  match k with
  | CallExpression | NewExpression | TaggedTemplateExpression => true
  | _ => false
  end.

(** ** Services that raise

    The services of the type checker are functions of the compiler, and a
    call of one of them may end in an exception instead of an answer.  The
    resolver and the walk have no handler, so that an exception of a service
    ends them.  [Host] is the resolver and the walk over such services;
    everything that does not call the type checker is shared with the
    definitions above. *)

Inductive Outcome (A : Type) : Type :=
| Returned (a : A)
| Raised.

Arguments Returned {A} a.
Arguments Raised {A}.

Definition andThen {A B : Type} (c : Outcome A) (k : A -> Outcome B)
    : Outcome B :=
  match c with
  | Returned a => k a
  | Raised => Raised
  end.

Notation "x <- c ;; k" := (andThen c (fun x => k))
  (at level 61, c at next level, right associativity).

Module Host.

Record TypeChecker : Type := mkChecker {
  getResolvedSignature : NodeRef -> Outcome (option Signature);
  getTypeAtLocation : NodeRef -> Outcome TsType;
  getPropertySymbolOfDestructuringAssignment :
    NodeRef -> Outcome (option Symbol);
  getSymbolAtLocation : NodeRef -> Outcome (option Symbol);
  getAliasedSymbol : Symbol -> Outcome Symbol
}.

Section Resolver.

Variable options : Options.
Variable utils : TsUtils.
Variable tc : TypeChecker.

(** The first half of [getUnwantedTags]. *)
Definition signaturePath (node : NodeInfo) (parent : NodeRef)
    : Outcome (option string) :=
  match getCallExpresion node parent with
  | Some callExpression =>
    signature <- getResolvedSignature tc callExpression ;;
    Returned (getSignatureUnwantedTags options utils signature)
  | None => Returned None
  end.

(** The symbol that [getUnwantedTags] looks up for the identifier. *)
Definition lookupSymbol (node : NodeInfo) (parent : NodeRef)
    : Outcome (option Symbol) :=
  let here := Inner node parent in
  match parent with
  | Inner p grand =>
    match kind p with
    | BindingElement =>
      type <- getTypeAtLocation tc grand ;;
      Returned (getProperty type (text node))
    | PropertyAssignment =>
      if sameNode (name p) node
      then getPropertySymbolOfDestructuringAssignment tc here
      else getSymbolAtLocation tc here
    | ShorthandPropertyAssignment =>
      if sameNode (name p) node && isReassignmentTarget utils here
      then getPropertySymbolOfDestructuringAssignment tc here
      else getSymbolAtLocation tc here
    | _ => getSymbolAtLocation tc here
    end
  | SourceFileRef _ => getSymbolAtLocation tc here
  end.

(** The alias step of [getUnwantedTags]. *)
Definition followAlias (symbol : option Symbol) : Outcome (option Symbol) :=
  match symbol with
  | Some s =>
    if isSymbolFlagSet s SymbolFlags_Alias
    then aliased <- getAliasedSymbol tc s ;; Returned (Some aliased)
    else Returned (Some s)
  | None => Returned None
  end.

(** [getUnwantedTags(node, tc)] *)
Definition getUnwantedTags (node : NodeInfo) (parent : NodeRef)
    : Outcome (option string) :=
  result <- signaturePath node parent ;;
  match result with
  | Some r => Returned (Some r)
  | None =>
    found <- lookupSymbol node parent ;;
    symbol <- followAlias found ;;
    match symbol with
    | None => Returned None
    | Some s =>
      if isDefined (getCallExpresion node parent)
         && isFunctionOrMethod (declarations s)
      then Returned None
      else Returned (getSymbolUnwantedTags options utils s)
    end
  end.

End Resolver.

(** [ts.forEachChild(node, cbNode)]; an exception of the callback ends the
    loop. *)
Definition forEachChild {R : Type}
    (cbNode : Node -> WalkContext -> Outcome (option R * WalkContext))
    : list Node -> WalkContext -> Outcome (option R * WalkContext) :=
  fix each (cs : list Node) (ctx : WalkContext) :=
    match cs with
    | [] => Returned (None, ctx)
    | c :: rest =>
      match cbNode c ctx with
      | Returned (Some r, ctx') => Returned (Some r, ctx')
      | Returned (None, ctx') => each rest ctx'
      | Raised => Raised
      end
    end.

Section Walk.

Variable options : Options.
Variable utils : TsUtils.
Variable tc : TypeChecker.

(** The callback [cb] of [walk]. *)
Fixpoint cb (parent : NodeRef) (node : Node) (ctx : WalkContext)
    {struct node} : Outcome (option unit * WalkContext) :=
  match node with
  | MkNode i cs =>
    match kind i with
    | Identifier =>
      if negb (isDeclaration utils i parent)
      then
        tags <- getUnwantedTags options utils tc i parent ;;
        match tags with
        | Some t =>
          Returned (None, addFailureAtNode ctx (Inner i parent)
                            (FAILURE_STRING (text i) t))
        | None => Returned (None, ctx)
        end
      else Returned (None, ctx)
    | ImportDeclaration
    | ImportEqualsDeclaration
    | ExportDeclaration
    | ExportAssignment => Returned (None, ctx)
    | _ => forEachChild (cb (Inner i parent)) cs ctx
    end
  end.

(** [walk(ctx, tc)] *)
Definition walk (ctx : WalkContext) : Outcome (option unit * WalkContext) :=
  forEachChild (cb (SourceFileRef (fileName (sourceFile ctx))))
    (statements (sourceFile ctx)) ctx.

(** [applyWithFunction(sourceFile, walk, options, tc)] *)
Definition applyWithFunction (sf : SourceFileNode)
    : Outcome (list RuleFailure) :=
  result <- walk (mkContext sf []) ;;
  Returned (failures (snd result)).

End Walk.

End Host.

(** A type checker all of whose services answer. *)
Definition answering (tc : TypeChecker) : Host.TypeChecker :=
  Host.mkChecker
    (fun r => Returned (getResolvedSignature tc r))
    (fun r => Returned (getTypeAtLocation tc r))
    (fun r => Returned (getPropertySymbolOfDestructuringAssignment tc r))
    (fun r => Returned (getSymbolAtLocation tc r))
    (fun s => Returned (getAliasedSymbol tc s)).

(** ** Sample programs *)

Module Samples.

(** tsutils on a program without reassignments and without parsed
    comments. *)
Definition plainUtils : TsUtils :=
  mkUtils (fun _ => false) (fun d => d) (fun _ => []).

Definition noSymbols : TypeChecker :=
  mkChecker (fun _ => None) (fun _ => mkType (fun _ => None))
    (fun _ => None) (fun _ => None) (fun s => s).

Definition file : NodeRef := SourceFileRef "sample.ts".

Definition plain (id : nat) (k : SyntaxKind) (t : string) : NodeInfo :=
  mkInfo id k t None None None None.

Definition named (id : nat) (k : SyntaxKind) (nameSlot : nat) : NodeInfo :=
  mkInfo id k "" (Some nameSlot) None None None.

(** [interface I { x = y }]: the identifier [y] is the initializer of the
    property signature [x = y], whose name is [x]. *)
Definition interfaceI : NodeRef :=
  Inner (named 1 InterfaceDeclaration 2) file.
Definition signatureX : NodeRef :=
  Inner (named 3 PropertySignature 4) interfaceI.
Definition identY : NodeInfo := plain 5 Identifier "y".

Definition contactArchitecture : Options :=
  mkOptions ["ContactArchitectureBeforeUse"].

Definition tagged (t : string) : list JSDocTagInfo :=
  [mkTagInfo "param" (Some "message Text to output");
   mkTagInfo "ContactArchitectureBeforeUse" (Some t)].

Definition callF : NodeRef :=
  Inner (mkInfo 20 CallExpression "" None None (Some 21) None)
    (Inner (plain 19 (OtherKind 0) "") file).
Definition identF : NodeInfo := plain 21 Identifier "F".

(** [import { helloWorld } from "./lib"] and [const f = helloWorld]: the
    identifier [helloWorld] of the initializer resolves to the import
    binding, whose target is the documented function. *)
Definition functionHello : NodeRef :=
  Inner (named 30 FunctionDeclaration 31) (SourceFileRef "lib.ts").
Definition symbolHello : Symbol :=
  mkSymbol 16 (Some (tagged "Ping the owning team first"))
    (Some [functionHello]).
Definition importSpecifier : NodeRef :=
  Inner (named 40 (OtherKind 1) 41)
    (Inner (plain 39 ImportDeclaration "") file).
Definition aliasHello : Symbol :=
  mkSymbol SymbolFlags_Alias (Some []) (Some [importSpecifier]).
Definition declarationOfF : NodeRef :=
  Inner (named 50 VariableDeclaration 51)
    (Inner (plain 49 VariableDeclarationList "") file).
Definition identHello : NodeInfo := plain 52 Identifier "helloWorld".
Definition checkerHello : TypeChecker :=
  mkChecker (fun _ => None) (fun _ => mkType (fun _ => None))
    (fun _ => None) (fun _ => Some aliasHello) (fun _ => symbolHello).

(** The call [helloWorld("x")] of the documented function, resolved to its
    one signature. *)
Definition callHello : NodeRef :=
  Inner (mkInfo 60 CallExpression "" None None (Some 61) None)
    (Inner (plain 59 (OtherKind 0) "") file).
Definition calledHello : NodeInfo := plain 61 Identifier "helloWorld".
Definition checkerCall : TypeChecker :=
  mkChecker
    (fun _ => Some (mkSignature
                      (Some (tagged "Ping the owning team first")) None))
    (fun _ => mkType (fun _ => None))
    (fun _ => None) (fun _ => Some symbolHello) (fun s => s).

(** A type checker that resolves the signature of the call and no
    symbol. *)
Definition signatureOnly : TypeChecker :=
  mkChecker
    (fun _ => Some (mkSignature
                      (Some (tagged "Ping the owning team first")) None))
    (fun _ => mkType (fun _ => None))
    (fun _ => None) (fun _ => None) (fun s => s).

(** The source file [import { helloWorld } from "./lib"; helloWorld("x");]
    as the walk sees
    it. *)
Definition program : SourceFileNode :=
  mkSourceFile "sample.ts"
    [MkNode (plain 39 ImportDeclaration "")
       [MkNode (plain 41 Identifier "helloWorld") []];
     MkNode (plain 59 (OtherKind 0) "")
       [MkNode (mkInfo 60 CallExpression "" None None (Some 61) None)
          [MkNode calledHello [];
           MkNode (plain 62 (OtherKind 2) "x") []]]].


(** [/** @ContactArchitectureBeforeUse ... */ function helloWorld() {}],
    declared and not referenced. *)
Definition declaredOnly : SourceFileNode :=
  mkSourceFile "sample.ts"
    [MkNode (named 30 FunctionDeclaration 31)
       [MkNode (plain 31 Identifier "helloWorld") [];
        MkNode (plain 32 (OtherKind 3) "") []]].

(** [const v = obj.prop], the property documented with the second of two
    configured tags. *)
Definition twoTags : Options :=
  mkOptions ["ContactArchitectureBeforeUse"; "MarkedForDeletion"].
Definition symbolProp : Symbol :=
  mkSymbol 4 (Some [mkTagInfo "MarkedForDeletion" (Some "use other")])
    (Some [Inner (named 70 PropertySignature 71) interfaceI]).
Definition checkerProp : TypeChecker :=
  mkChecker (fun _ => None) (fun _ => mkType (fun _ => None))
    (fun _ => None)
    (fun r => match r with
              | Inner i _ => if Nat.eqb (nid i) 85 then Some symbolProp
                             else None
              | SourceFileRef _ => None
              end)
    (fun s => s).
Definition propertyRead : SourceFileNode :=
  mkSourceFile "sample.ts"
    [MkNode (plain 80 VariableDeclarationList "")
       [MkNode (named 81 VariableDeclaration 82)
          [MkNode (plain 82 Identifier "v") [];
           MkNode (mkInfo 83 PropertyAccessExpression "" (Some 85) None
                     (Some 84) None)
             [MkNode (plain 84 Identifier "obj") [];
              MkNode (plain 85 Identifier "prop") []]]]].

(** [const {a: b} = obj]: the binding element has the property name [a]
    and the name [b]. *)
Definition bindingAB : NodeRef :=
  Inner (mkInfo 90 BindingElement "" (Some 92) (Some 91) None None)
    (Inner (plain 89 (OtherKind 4) "") declarationOfF).
Definition identA : NodeInfo := plain 91 Identifier "a".
Definition identB : NodeInfo := plain 92 Identifier "b".


(** [const {a = dflt} = obj]: [dflt] is the initializer of the binding
    element named [a]; the type of [obj] has a documented property
    [dflt]. *)
Definition bindingDefault : NodeRef :=
  Inner (mkInfo 100 BindingElement "" (Some 101) None None None)
    (Inner (plain 99 (OtherKind 4) "") declarationOfF).
Definition identDflt : NodeInfo := plain 102 Identifier "dflt".
Definition checkerDflt : TypeChecker :=
  mkChecker (fun _ => None)
    (fun _ => mkType (fun n => if String.eqb n "dflt"
                               then Some symbolProp else None))
    (fun _ => None) (fun _ => None) (fun s => s).

(** [obj.helloWorld("x")]: the called method is the name of a property
    access. *)
Definition methodCall : NodeRef :=
  Inner (mkInfo 110 CallExpression "" None None (Some 111) None)
    (Inner (plain 109 (OtherKind 0) "") file).
Definition methodAccess : NodeRef :=
  Inner (mkInfo 111 PropertyAccessExpression "" (Some 113) None
           (Some 112) None) methodCall.
Definition identMethod : NodeInfo := plain 113 Identifier "helloWorld".

(** A variable statement documented in a parsed comment, for a type checker
    without tag query. *)
Definition statementV : NodeRef := Inner (plain 120 (OtherKind 5) "") file.
Definition declarationV : NodeRef :=
  Inner (named 122 VariableDeclaration 123)
    (Inner (plain 121 VariableDeclarationList "") statementV).
Definition commentsV : list JSDoc :=
  [mkJSDoc None;
   mkJSDoc (Some [mkJSDocTag "see" (Some "other");
                  mkJSDocTag "MarkedForDeletion" (Some "use other")])].
Definition utilsV : TsUtils :=
  mkUtils (fun _ => false) (fun d => d)
    (fun d => match d with
              | Inner i _ => if Nat.eqb (nid i) 120 then commentsV else []
              | SourceFileRef _ => []
              end).
Definition legacyV : Symbol := mkSymbol 1 None (Some [declarationV]).
Definition modernV : Symbol :=
  mkSymbol 1
    (Some [mkTagInfo "see" (Some "other");
           mkTagInfo "MarkedForDeletion" (Some "use other")])
    (Some [declarationV]).


(** The kinds of the statements below, among the kinds without a name of
    their own. *)
Definition expressionStatement : SyntaxKind := OtherKind 0.
Definition numericLiteral : SyntaxKind := OtherKind 6.
Definition deleteExpression : SyntaxKind := OtherKind 7.
Definition binaryExpression : SyntaxKind := OtherKind 8.
Definition forOfStatement : SyntaxKind := OtherKind 9.
Definition arrayLiteralExpression : SyntaxKind := OtherKind 10.

(** [isReassignmentTarget] of tsutils at the operand of [delete]: true of
    the operand, whatever it is; false of the name of a shorthand property
    outside of a destructuring assignment. *)
Definition deleteUtils : TsUtils :=
  mkUtils
    (fun r => match r with
              | Inner _ (Inner p _) =>
                match kind p with
                | OtherKind 7 => true
                | _ => false
                end
              | _ => false
              end)
    (fun d => d) (fun _ => []).

(** A type checker whose lookup of the property symbol of a destructuring
    assignment asserts, as the compiler's does, that the object literal of
    the property is the pattern of an assignment, of a [for ... of], of a
    property assignment or of an array literal, and raises otherwise. *)
Definition assertingChecker : Host.TypeChecker :=
  Host.mkChecker
    (fun _ => Returned (Some (mkSignature
                                (Some (tagged "Ping the owning team first"))
                                None)))
    (fun _ => Returned (mkType (fun _ => None)))
    (fun r => match r with
              | Inner _ (Inner _ (Inner _ (Inner outer _))) =>
                match kind outer with
                | PropertyAssignment
                | OtherKind 8 | OtherKind 9 | OtherKind 10 => Returned None
                | _ => Raised
                end
              | _ => Raised
              end)
    (fun _ => Returned (Some symbolHello))
    (fun s => Returned s).

(** [delete {a: 1}; helloWorld("x");] *)
Definition deleteStatement : NodeRef :=
  Inner (plain 130 expressionStatement "") file.
Definition deletedLiteral : NodeRef :=
  Inner (plain 132 ObjectLiteralExpression "")
    (Inner (plain 131 deleteExpression "") deleteStatement).
Definition propertyA : NodeRef :=
  Inner (named 133 PropertyAssignment 134) deletedLiteral.
Definition nameA : NodeInfo := plain 134 Identifier "a".
Definition deleteProgram : SourceFileNode :=
  mkSourceFile "sample.ts"
    [MkNode (plain 130 expressionStatement "")
       [MkNode (plain 131 deleteExpression "")
          [MkNode (plain 132 ObjectLiteralExpression "")
             [MkNode (named 133 PropertyAssignment 134)
                [MkNode nameA [];
                 MkNode (plain 135 numericLiteral "1") []]]]];
     MkNode (plain 59 (OtherKind 0) "")
       [MkNode (mkInfo 60 CallExpression "" None None (Some 61) None)
          [MkNode calledHello [];
           MkNode (plain 62 (OtherKind 2) "x") []]]].

(** [delete {a}]: the same with a shorthand property. *)
Definition shorthandA : NodeRef :=
  Inner (named 133 ShorthandPropertyAssignment 134) deletedLiteral.

End Samples.

(** ** Induction on syntax trees *)

Lemma Node_tree_ind (P : Node -> Prop) :
  (forall i cs, Forall P cs -> P (MkNode i cs)) -> forall n, P n.
Proof.
  intros step. fix self 1. intros [i cs]. apply step.
  induction cs as [|c cs IH]; constructor.
  - apply self.
  - exact IH.
Qed.

(** ** Declaration sites *)

Lemma isDefined_true {A : Type} (o : option A) :
  isDefined o = true <-> o <> None.
Proof. destruct o; simpl; split; congruence. Qed.

(** C3, as stated, at the identifier [y] of [interface I { x = y }]: the
    classifier answers true below a property signature, which the
    specification's list does not contain. *)
Lemma isDeclaration_property_signature :
  isDeclaration Samples.plainUtils Samples.identY Samples.signatureX = true
  /\ ~ declarationSite_spec Samples.plainUtils Samples.identY
         Samples.signatureX.
Proof.
  split; [reflexivity|].
  unfold declarationSite_spec, declarationSiteWith; simpl.
  intros [H|[[H _]|[[H _]|[H _]]]]; discriminate.
Qed.

(** C3, amended: an identifier is classified as a declaration exactly when
    its parent is a named entity or a property signature, or a binding node
    naming it, or a property assignment naming it whose object literal is
    not a reassignment target, or a binding element naming it that has a
    property name. *)
Theorem isDeclaration_iff (utils : TsUtils) (identifier : NodeInfo)
    (parent : NodeRef) :
  isDeclaration utils identifier parent = true
  <-> declarationSite_amended utils identifier parent.
Proof.
  unfold declarationSite_amended, declarationSiteWith, isDeclaration.
  destruct parent as [f|p grand]; [split; [discriminate|tauto]|].
  destruct (kind p) eqn:K; simpl;
    rewrite ?andb_true_iff, ?negb_true_iff, ?isDefined_true;
    split; intros H;
    repeat match goal with
           | H : _ \/ _ |- _ => destruct H
           | H : _ /\ _ |- _ => destruct H
           end;
    try discriminate; try reflexivity; tauto.
Qed.

(** ** The match test *)

Lemma includes_In (l : list string) (s : string) :
  includes l s = true <-> In s l.
Proof.
  unfold includes. rewrite existsb_exists. split.
  - intros [x [Hin Heq]]. apply String.eqb_eq in Heq. now subst.
  - intros Hin. exists s. split; [exact Hin | apply String.eqb_refl].
Qed.

Lemma includes_not_In (l : list string) (s : string) :
  includes l s = false <-> ~ In s l.
Proof.
  rewrite <- includes_In. destruct (includes l s); split; congruence.
Qed.

Section FirstMatchFacts.

Variable T : Type.
Variable nameOf : T -> string.
Variable textOf : T -> option string.
Variable configured : list string.

Lemma firstMatch_Some (l : list T) (s : string) :
  firstMatch nameOf textOf configured l = Some s
  <-> exists before t after,
        l = (before ++ t :: after)%list
        /\ Forall (fun u => ~ In (nameOf u) configured) before
        /\ In (nameOf t) configured
        /\ s = orEmpty (textOf t).
Proof.
  induction l as [|a l IH]; simpl.
  - split; [discriminate|].
    intros (before & t & after & E & _). destruct before; discriminate.
  - destruct (includes configured (nameOf a)) eqn:I.
    + split.
      * intros E. injection E as <-. exists [], a, l.
        repeat split; [constructor | now apply includes_In].
      * intros (before & t & after & E & Hb & Ht & ->).
        destruct before as [|b before]; simpl in E; injection E as -> ->.
        -- reflexivity.
        -- apply Forall_inv in Hb. apply includes_In in I. contradiction.
    + rewrite IH. split.
      * intros (before & t & after & -> & Hb & Ht & ->).
        exists (a :: before), t, after. repeat split; try assumption.
        constructor; [now apply includes_not_In | assumption].
      * intros (before & t & after & E & Hb & Ht & ->).
        destruct before as [|b before]; simpl in E; injection E as -> ->.
        -- apply includes_not_In in I. contradiction.
        -- exists before, t, after. repeat split; try assumption.
           now apply Forall_inv_tail in Hb.
Qed.

Lemma firstMatch_None (l : list T) :
  firstMatch nameOf textOf configured l = None
  <-> Forall (fun u => ~ In (nameOf u) configured) l.
Proof.
  induction l as [|a l IH]; simpl.
  - split; [constructor | reflexivity].
  - destruct (includes configured (nameOf a)) eqn:I.
    + split; [discriminate|]. intros H. apply Forall_inv in H.
      apply includes_In in I. contradiction.
    + rewrite IH. split.
      * intros H. constructor; [now apply includes_not_In | assumption].
      * intros H. now apply Forall_inv_tail in H.
Qed.

End FirstMatchFacts.

Lemma firstMatch_app {T : Type} (nameOf : T -> string)
    (textOf : T -> option string) (configured : list string)
    (l1 l2 : list T) :
  firstMatch nameOf textOf configured (l1 ++ l2)
  = match firstMatch nameOf textOf configured l1 with
    | Some r => Some r
    | None => firstMatch nameOf textOf configured l2
    end.
Proof.
  induction l1 as [|a l1 IH]; simpl; [reflexivity|].
  destruct (includes configured (nameOf a)); [reflexivity | exact IH].
Qed.

Lemma findUnwantedTagsTag_firstMatch (options : Options)
    (l : list JSDocTagInfo) :
  findUnwantedTagsTag options l
  = firstMatch tagInfo_name tagInfo_text (opt_tags options) l.
Proof.
  induction l as [|a l IH]; simpl; [reflexivity|].
  now rewrite IH.
Qed.

Lemma findInCommentTags_firstMatch (options : Options) (l : list JSDocTag) :
  findInCommentTags options l
  = firstMatch tagName comment (opt_tags options) l.
Proof.
  induction l as [|a l IH]; simpl; [reflexivity|].
  now rewrite IH.
Qed.

Lemma findInComments_firstMatch (options : Options) (cs : list JSDoc) :
  findInComments options cs
  = firstMatch tagName comment (opt_tags options) (commentTags cs).
Proof.
  induction cs as [|c cs IH]; simpl; [reflexivity|].
  unfold commentTags in *; simpl. rewrite firstMatch_app.
  destruct (tags c) as [l|]; simpl.
  - rewrite findInCommentTags_firstMatch.
    destruct (firstMatch tagName comment (opt_tags options) l);
      [reflexivity | exact IH].
  - exact IH.
Qed.

(** C5: the match test returns the text of the first tag whose name is in
    the configured tag set, the empty string where that tag has no text,
    and nothing where no tag has a configured name; the same holds of the
    scan of the parsed comments of a declaration. *)
Theorem match_test_first_configured (options : Options) :
  (forall l s,
      findUnwantedTagsTag options l = Some s
      <-> exists before t after,
            l = (before ++ t :: after)%list
            /\ Forall (fun u => ~ In (tagInfo_name u) (opt_tags options))
                 before
            /\ In (tagInfo_name t) (opt_tags options)
            /\ s = match tagInfo_text t with None => "" | Some x => x end)
  /\ (forall l,
      findUnwantedTagsTag options l = None
      <-> Forall (fun u => ~ In (tagInfo_name u) (opt_tags options)) l)
  /\ (forall utils d s,
      getUnwantedTagsFromDeclaration options utils d = Some s
      <-> exists before t after,
            commentTags (getJsDoc utils d) = (before ++ t :: after)%list
            /\ Forall (fun u => ~ In (tagName u) (opt_tags options)) before
            /\ In (tagName t) (opt_tags options)
            /\ s = match comment t with None => "" | Some x => x end)
  /\ (forall utils d,
      getUnwantedTagsFromDeclaration options utils d = None
      <-> Forall (fun u => ~ In (tagName u) (opt_tags options))
            (commentTags (getJsDoc utils d))).
Proof.
  repeat split.
  - rewrite findUnwantedTagsTag_firstMatch. apply firstMatch_Some.
  - rewrite findUnwantedTagsTag_firstMatch. apply firstMatch_Some.
  - rewrite findUnwantedTagsTag_firstMatch. apply firstMatch_None.
  - rewrite findUnwantedTagsTag_firstMatch. apply firstMatch_None.
  - unfold getUnwantedTagsFromDeclaration.
    rewrite findInComments_firstMatch. apply firstMatch_Some.
  - unfold getUnwantedTagsFromDeclaration.
    rewrite findInComments_firstMatch. apply firstMatch_Some.
  - unfold getUnwantedTagsFromDeclaration.
    rewrite findInComments_firstMatch. apply firstMatch_None.
  - unfold getUnwantedTagsFromDeclaration.
    rewrite findInComments_firstMatch. apply firstMatch_None.
Qed.

(** ** Failure messages *)

Lemma trimStart_split (l : list ascii) :
  exists pre,
    l = (pre ++ trimStart l)%list
    /\ forallb isWhiteSpace pre = true
    /\ edgeClean (trimStart l).
Proof.
  induction l as [|c l (pre & E & W & C)]; simpl.
  - exists []. repeat split.
  - destruct (isWhiteSpace c) eqn:Wc.
    + exists (c :: pre). simpl. rewrite Wc, W. repeat split; try assumption.
      now rewrite <- E.
    + exists []. repeat split. exact Wc.
Qed.

Lemma forallb_rev (f : ascii -> bool) (l : list ascii) :
  forallb f (rev l) = forallb f l.
Proof.
  induction l as [|a l IH]; simpl; [reflexivity|].
  rewrite forallb_app, IH. simpl. rewrite andb_true_r. apply andb_comm.
Qed.

Lemma trim_split (s : string) :
  exists pre post,
    list_ascii_of_string s
    = (pre ++ list_ascii_of_string (trim s) ++ post)%list
    /\ forallb isWhiteSpace pre = true
    /\ forallb isWhiteSpace post = true
    /\ edgeClean (list_ascii_of_string (trim s))
    /\ edgeClean (rev (list_ascii_of_string (trim s))).
Proof.
  unfold trim. rewrite list_ascii_of_string_of_list_ascii.
  destruct (trimStart_split (list_ascii_of_string s)) as (pre & E & W & C).
  set (a := trimStart (list_ascii_of_string s)) in *.
  destruct (trimStart_split (rev a)) as (post & E' & W' & C').
  set (b := trimStart (rev a)) in *.
  assert (Ea : a = (rev b ++ rev post)%list).
  { rewrite <- rev_app_distr, <- E'. symmetry. apply rev_involutive. }
  exists pre, (rev post). repeat split.
  - rewrite <- Ea. exact E.
  - exact W.
  - now rewrite forallb_rev.
  - destruct (rev b) as [|c r] eqn:R; simpl; [exact I|].
    rewrite Ea in C. exact C.
  - rewrite rev_involutive. exact C'.
Qed.

(** C6: the message is [Found disallowed tag at <name>.] for the empty
    match text and [Found disallowed tag at <name>: <text>] otherwise,
    where <text> is the match text without the white space around it. *)
Theorem FAILURE_STRING_format (name message : string) :
  FAILURE_STRING name "" = "Found disallowed tag at " ++ name ++ "."
  /\ (message <> "" ->
      FAILURE_STRING name message
      = "Found disallowed tag at " ++ name ++ ": " ++ trim message)
  /\ exists pre post,
       list_ascii_of_string message
       = (pre ++ list_ascii_of_string (trim message) ++ post)%list
       /\ forallb isWhiteSpace pre = true
       /\ forallb isWhiteSpace post = true
       /\ edgeClean (list_ascii_of_string (trim message))
       /\ edgeClean (rev (list_ascii_of_string (trim message))).
Proof.
  split; [reflexivity|]. split; [|apply trim_split].
  intros H. unfold FAILURE_STRING.
  destruct (String.eqb_spec message ""); [contradiction | reflexivity].
Qed.

(** C6 at the text of the README's tag with white space around it. *)
Lemma FAILURE_STRING_format_witness :
  FAILURE_STRING "helloWorld" "  Ping the owning team first "
  = "Found disallowed tag at helloWorld: Ping the owning team first".
Proof.
  destruct (FAILURE_STRING_format "helloWorld"
              "  Ping the owning team first ") as (_ & H & _).
  rewrite H; [reflexivity | discriminate].
Defined.

(** ** The walk *)

Lemma context_eta (ctx : WalkContext) :
  mkContext (sourceFile ctx) (failures ctx ++ []) = ctx.
Proof. destruct ctx; simpl. now rewrite app_nil_r. Qed.

Lemma flat_map_nested {A B C : Type} (f : A -> list B) (g : B -> list C)
    (l : list A) :
  flat_map g (flat_map f l) = flat_map (fun a => flat_map g (f a)) l.
Proof.
  induction l as [|a l IH]; simpl; [reflexivity|].
  now rewrite flat_map_app, IH.
Qed.

(** A callback that never returns a value and only appends failures is
    run on every child. *)
Lemma forEachChild_appends {R : Type}
    (cbNode : Node -> WalkContext -> option R * WalkContext)
    (g : Node -> list RuleFailure) (cs : list Node) :
  Forall (fun c => forall ctx,
            cbNode c ctx
            = (None, mkContext (sourceFile ctx) (failures ctx ++ g c))) cs ->
  forall ctx,
    forEachChild cbNode cs ctx
    = (None, mkContext (sourceFile ctx) (failures ctx ++ flat_map g cs)).
Proof.
  induction 1 as [|c cs Hc _ IH]; intros ctx; simpl.
  - now rewrite context_eta.
  - rewrite Hc, IH. simpl. now rewrite app_assoc.
Qed.

Section WalkFacts.

Variable options : Options.
Variable utils : TsUtils.
Variable tc : TypeChecker.

Lemma cb_appends (node : Node) :
  forall parent ctx,
    cb options utils tc parent node ctx
    = (None,
       mkContext (sourceFile ctx)
         (failures ctx
          ++ flat_map (report options utils tc) (visited parent node))).
Proof.
  induction node as [i cs IH] using Node_tree_ind. intros parent ctx.
  assert (Hrec :
    forEachChild (cb options utils tc (Inner i parent)) cs ctx
    = (None,
       mkContext (sourceFile ctx)
         (failures ctx
          ++ flat_map (report options utils tc)
               (flat_map (visited (Inner i parent)) cs)))).
  { rewrite flat_map_nested.
    apply forEachChild_appends.
    apply Forall_forall. intros c Hc ctx'.
    rewrite Forall_forall in IH. apply (IH c Hc). }
  cbn [cb visited flat_map]. unfold report at 1.
  destruct (kind i) eqn:K; cbn [app flat_map];
    try exact Hrec; try (now rewrite context_eta).
  destruct (isDeclaration utils i parent); cbn [negb];
    [now rewrite context_eta|].
  destruct (getUnwantedTags options utils tc i parent);
    [|now rewrite context_eta].
  unfold addFailureAtNode. now rewrite app_nil_r.
Qed.

Lemma walk_appends (ctx : WalkContext) :
  walk options utils tc ctx
  = (None,
     mkContext (sourceFile ctx)
       (failures ctx
        ++ flat_map (report options utils tc)
             (visitedInFile (sourceFile ctx)))).
Proof.
  unfold walk, visitedInFile. rewrite flat_map_nested.
  apply forEachChild_appends, Forall_forall.
  intros c _ ctx'. apply cb_appends.
Qed.

Lemma applyWithFunction_reports (sf : SourceFileNode) :
  applyWithFunction options utils tc sf
  = flat_map (report options utils tc) (visitedInFile sf).
Proof.
  unfold applyWithFunction. now rewrite walk_appends.
Qed.

End WalkFacts.

Lemma flat_map_agree {A B : Type} (f g : A -> list B) (l : list A) :
  (forall a, In a l -> f a = g a) -> flat_map f l = flat_map g l.
Proof.
  induction l as [|a l IH]; intros H; simpl; [reflexivity|].
  rewrite (H a (or_introl eq_refl)), IH; [reflexivity|].
  intros b Hb. apply H. now right.
Qed.

Lemma report_at_most_one (options : Options) (utils : TsUtils)
    (tc : TypeChecker) (r : NodeRef) :
  List.length (report options utils tc r) <= 1.
Proof.
  destruct r as [f|i parent]; simpl; [lia|].
  destruct (kind i); simpl; try lia.
  destruct (isDeclaration utils i parent); simpl; [lia|].
  destruct (getUnwantedTags options utils tc i parent); simpl; lia.
Qed.

Lemma report_In (options : Options) (utils : TsUtils) (tc : TypeChecker)
    (r : NodeRef) (f : RuleFailure) :
  In f (report options utils tc r)
  <-> exists i parent t,
        r = Inner i parent
        /\ kind i = Identifier
        /\ isDeclaration utils i parent = false
        /\ getUnwantedTags options utils tc i parent = Some t
        /\ f = mkFailure r (FAILURE_STRING (text i) t).
Proof.
  split.
  - destruct r as [file|i parent]; simpl; [tauto|].
    destruct (kind i) eqn:K; simpl; try tauto.
    destruct (isDeclaration utils i parent) eqn:D; simpl; [tauto|].
    destruct (getUnwantedTags options utils tc i parent) as [t|] eqn:G;
      simpl; [|tauto].
    intros [<-|[]]. exists i, parent, t. repeat split; assumption.
  - intros (i & parent & t & -> & K & D & G & ->).
    simpl. rewrite K, D, G. now left.
Qed.

(** C1: the failures of a walk are, in the order of the walk, those of the
    nodes it reaches; a reached node yields at most one failure, and yields
    one exactly when it is an identifier that is not a declaration and for
    which the resolver returns a match, the message being built from the
    text of the identifier and the match; what the resolver would answer at
    any other node has no influence on the result. *)
Theorem walk_reports_references (options : Options) (utils : TsUtils)
    (tc : TypeChecker) (sf : SourceFileNode) :
  applyWithFunction options utils tc sf
  = flat_map (report options utils tc) (visitedInFile sf)
  /\ (forall r, List.length (report options utils tc r) <= 1)
  /\ (forall r f,
        In f (report options utils tc r)
        <-> exists i parent t,
              r = Inner i parent
              /\ kind i = Identifier
              /\ isDeclaration utils i parent = false
              /\ getUnwantedTags options utils tc i parent = Some t
              /\ f = mkFailure r (FAILURE_STRING (text i) t))
  /\ (forall tc',
        (forall i parent,
            In (Inner i parent) (visitedInFile sf) ->
            kind i = Identifier ->
            isDeclaration utils i parent = false ->
            getUnwantedTags options utils tc' i parent
            = getUnwantedTags options utils tc i parent) ->
        applyWithFunction options utils tc' sf
        = applyWithFunction options utils tc sf).
Proof.
  split; [apply applyWithFunction_reports|].
  split; [apply report_at_most_one|].
  split; [apply report_In|].
  intros tc' H. rewrite !applyWithFunction_reports.
  apply flat_map_agree. intros [file|i parent] Hin; [reflexivity|].
  simpl. destruct (kind i) eqn:K; try reflexivity.
  destruct (isDeclaration utils i parent) eqn:D; [reflexivity|].
  now rewrite (H i parent Hin K D).
Qed.

(** C1 at the sample program: the one failure is at the called identifier,
    and a type checker that resolves the same signature but no symbol gives
    the same failures. *)
Lemma walk_reports_references_witness :
  applyWithFunction Samples.contactArchitecture Samples.plainUtils
    Samples.checkerCall Samples.program
  = [mkFailure (Inner Samples.calledHello Samples.callHello)
       "Found disallowed tag at helloWorld: Ping the owning team first"]
  /\ applyWithFunction Samples.contactArchitecture Samples.plainUtils
       Samples.signatureOnly Samples.program
     = applyWithFunction Samples.contactArchitecture Samples.plainUtils
         Samples.checkerCall Samples.program.
Proof.
  destruct (walk_reports_references Samples.contactArchitecture
              Samples.plainUtils Samples.checkerCall Samples.program)
    as (E & _ & _ & H).
  split; [rewrite E; reflexivity|].
  apply H. intros i parent Hin K D. simpl in Hin.
  destruct Hin as [Q|[Q|[Q|[Q|[Q|[]]]]]]; injection Q as <- <-;
    solve [discriminate K | reflexivity].
Defined.

(** ** Import and export declarations *)

Lemma visited_outside_excluded (node : Node) :
  forall parent r,
    In r (visited parent node) ->
    Forall (fun a => isExcludedSubtree (kindOf a) = false)
      (parent :: ancestors parent) ->
    Forall (fun a => isExcludedSubtree (kindOf a) = false) (ancestors r).
Proof.
  induction node as [i cs IH] using Node_tree_ind.
  intros parent r Hin Hup. cbn [visited] in Hin.
  destruct Hin as [<-|Hin]; [exact Hup|].
  assert (Hbelow :
    In r (flat_map (visited (Inner i parent)) cs) ->
    isExcludedSubtree (kind i) = false ->
    Forall (fun a => isExcludedSubtree (kindOf a) = false) (ancestors r)).
  { intros Hr Hk. apply in_flat_map in Hr. destruct Hr as (c & Hc & Hr).
    rewrite Forall_forall in IH.
    apply (IH c Hc (Inner i parent) r Hr).
    constructor; [exact Hk | exact Hup]. }
  destruct (kind i) eqn:K; try contradiction; apply Hbelow;
    try exact Hin; reflexivity.
Qed.

Lemma failure_nodes_visited (options : Options) (utils : TsUtils)
    (tc : TypeChecker) (sf : SourceFileNode) (f : RuleFailure) :
  In f (applyWithFunction options utils tc sf) ->
  In (failure_node f) (visitedInFile sf).
Proof.
  rewrite applyWithFunction_reports. intros H.
  apply in_flat_map in H. destruct H as (r & Hr & Hf).
  apply report_In in Hf.
  destruct Hf as (i & parent & t & -> & _ & _ & _ & ->). exact Hr.
Qed.

(** C8: at an import, import-equals or export declaration or an export
    assignment the callback returns at once and leaves the context as it
    was, whatever is below the node; no failure of a walk is at a node that
    has such a node among its ancestors. *)
Theorem walk_skips_imports_and_exports (options : Options) (utils : TsUtils)
    (tc : TypeChecker) :
  (forall parent i cs ctx,
      isExcludedSubtree (kind i) = true ->
      cb options utils tc parent (MkNode i cs) ctx = (None, ctx))
  /\ (forall sf f,
      In f (applyWithFunction options utils tc sf) ->
      Forall (fun a => isExcludedSubtree (kindOf a) = false)
        (ancestors (failure_node f))).
Proof.
  split.
  - intros parent i cs ctx H. cbn [cb].
    destruct (kind i); try discriminate; reflexivity.
  - intros sf f Hf. apply failure_nodes_visited in Hf.
    unfold visitedInFile in Hf. apply in_flat_map in Hf.
    destruct Hf as (c & _ & Hr).
    apply (visited_outside_excluded c _ _ Hr).
    constructor; [reflexivity | constructor].
Qed.

(** C8 at the sample program: the import declaration leaves the context as
    it was, and the one failure is outside of it. *)
Lemma walk_skips_imports_and_exports_witness :
  cb Samples.contactArchitecture Samples.plainUtils Samples.checkerCall
    Samples.file
    (MkNode (Samples.plain 39 ImportDeclaration "")
       [MkNode (Samples.plain 41 Identifier "helloWorld") []])
    (mkContext Samples.program [])
  = (None, mkContext Samples.program [])
  /\ Forall (fun a => isExcludedSubtree (kindOf a) = false)
       (ancestors (Inner Samples.calledHello Samples.callHello)).
Proof.
  destruct (walk_skips_imports_and_exports Samples.contactArchitecture
              Samples.plainUtils Samples.checkerCall) as (H1 & H2).
  split.
  - apply H1. reflexivity.
  - apply (H2 Samples.program
             (mkFailure (Inner Samples.calledHello Samples.callHello)
                "Found disallowed tag at helloWorld: Ping the owning team first")).
    left. reflexivity.
Defined.

(** ** An empty tag list *)

Section EmptyTags.

Variable options : Options.
Variable utils : TsUtils.
Variable tc : TypeChecker.
Hypothesis no_tags : opt_tags options = [].

Lemma findUnwantedTagsTag_empty (l : list JSDocTagInfo) :
  findUnwantedTagsTag options l = None.
Proof.
  induction l as [|a l IH]; simpl; [reflexivity|].
  rewrite no_tags. exact IH.
Qed.

Lemma findInCommentTags_empty (l : list JSDocTag) :
  findInCommentTags options l = None.
Proof.
  induction l as [|a l IH]; simpl; [reflexivity|].
  rewrite no_tags. exact IH.
Qed.

Lemma getUnwantedTagsFromDeclaration_empty (d : NodeRef) :
  getUnwantedTagsFromDeclaration options utils d = None.
Proof.
  unfold getUnwantedTagsFromDeclaration.
  induction (getJsDoc utils d) as [|c cs IH]; simpl; [reflexivity|].
  destruct (tags c) as [l|]; [|exact IH].
  now rewrite findInCommentTags_empty.
Qed.

Lemma getSymbolUnwantedTags_empty (symbol : Symbol) :
  getSymbolUnwantedTags options utils symbol = None.
Proof.
  unfold getSymbolUnwantedTags.
  destruct (symbol_getJsDocTags symbol);
    [apply findUnwantedTagsTag_empty|].
  destruct (declarations symbol) as [ds|]; simpl; [|reflexivity].
  induction ds as [|d ds IH]; simpl; [reflexivity|].
  now rewrite getUnwantedTagsFromDeclaration_empty.
Qed.

Lemma getSignatureUnwantedTags_empty (signature : option Signature) :
  getSignatureUnwantedTags options utils signature = None.
Proof.
  destruct signature as [sg|]; simpl; [|reflexivity].
  destruct (signature_getJsDocTags sg);
    [apply findUnwantedTagsTag_empty|].
  destruct (declaration sg);
    [apply getUnwantedTagsFromDeclaration_empty | reflexivity].
Qed.

Lemma getUnwantedTags_empty (node : NodeInfo) (parent : NodeRef) :
  getUnwantedTags options utils tc node parent = None.
Proof.
  unfold getUnwantedTags, signaturePath, symbolPath.
  destruct (getCallExpresion node parent); simpl;
    rewrite ?getSignatureUnwantedTags_empty;
    destruct (followAlias tc (lookupSymbol utils tc node parent));
    try reflexivity;
    try destruct (isFunctionOrMethod (declarations s));
    try reflexivity; apply getSymbolUnwantedTags_empty.
Qed.

Lemma applyWithFunction_empty (sf : SourceFileNode) :
  applyWithFunction options utils tc sf = [].
Proof.
  rewrite applyWithFunction_reports.
  induction (visitedInFile sf) as [|r l IH]; simpl; [reflexivity|].
  rewrite IH, app_nil_r.
  destruct r as [file|i parent]; simpl; [reflexivity|].
  destruct (kind i); try reflexivity.
  destruct (isDeclaration utils i parent); [reflexivity|].
  now rewrite getUnwantedTags_empty.
Qed.

End EmptyTags.

Lemma parseOptions_short (args : list RuleArgument) :
  List.length args < 2 -> parseOptions (Some args) = Some (mkOptions []).
Proof.
  intros H. unfold parseOptions.
  destruct args as [|a [|b rest]]; simpl in *; try reflexivity; lia.
Qed.

(** C10: rule arguments that are undefined or have fewer than two elements
    parse to the empty tag list, the element at index 0 having no part in
    the result; with an empty tag list the walk reports nothing, for every
    source file and type checker. *)
Theorem empty_tag_list_reports_nothing :
  parseOptions None = Some (mkOptions [])
  /\ (forall args,
        List.length args < 2 -> parseOptions (Some args) = Some (mkOptions []))
  /\ (forall a a' rest,
        parseOptions (Some (a :: rest)) = parseOptions (Some (a' :: rest)))
  /\ (forall options utils tc sf,
        opt_tags options = [] -> applyWithFunction options utils tc sf = [])
  /\ (forall args utils tc sf,
        List.length args < 2 ->
        applyWithProgram (Some args) utils tc sf = Some []).
Proof.
  split; [reflexivity|]. split; [exact parseOptions_short|].
  split; [reflexivity|]. split.
  - intros. now apply applyWithFunction_empty.
  - intros args utils tc sf H. unfold applyWithProgram.
    rewrite (parseOptions_short args H).
    now rewrite applyWithFunction_empty.
Qed.

(** C10 at the rule arguments [[true]] and the sample program. *)
Lemma empty_tag_list_reports_nothing_witness :
  applyWithProgram (Some [ArgBoolean true]) Samples.plainUtils
    Samples.checkerCall Samples.program = Some []
  /\ applyWithFunction (mkOptions []) Samples.plainUtils Samples.checkerCall
       Samples.program = [].
Proof.
  destruct empty_tag_list_reports_nothing as (_ & _ & _ & H4 & H5).
  split.
  - apply H5. simpl. lia.
  - apply H4. reflexivity.
Defined.

(** ** Call targets *)

Lemma directCallee_callLikeParent (node : NodeInfo) (parent : NodeRef) :
  directCallee node parent = true -> callLikeParent node parent = Some parent.
Proof.
  unfold directCallee, callLikeParent.
  destruct parent as [file|q g]; [discriminate|].
  destruct (kind q); try discriminate; intros H; rewrite ?H; reflexivity.
Qed.

Lemma directCallee_not_unwound (node : NodeInfo) (parent : NodeRef) :
  directCallee node parent = true ->
  unwindPropertyAccess node parent = (node, parent).
Proof.
  unfold directCallee, unwindPropertyAccess.
  destruct parent as [file|q g]; [discriminate|].
  destruct (kind q); try discriminate; reflexivity.
Qed.

Lemma calleeOf_getCallExpresion (node : NodeInfo) (parent call : NodeRef) :
  calleeOf node parent = Some call ->
  getCallExpresion node parent = Some call.
Proof.
  unfold calleeOf, getCallExpresion.
  destruct (directCallee node parent) eqn:D.
  - intros E. injection E as <-.
    rewrite (directCallee_not_unwound _ _ D).
    now apply directCallee_callLikeParent.
  - destruct parent as [file|p grand]; [discriminate|].
    unfold unwindPropertyAccess.
    destruct (kind p) eqn:K; try discriminate.
    destruct (sameNode (name p) node) eqn:N; [|discriminate].
    destruct (directCallee p grand) eqn:D'; [|discriminate].
    intros E. injection E as <-.
    now apply directCallee_callLikeParent.
Qed.

(** C2: for an identifier that is the callee of a call, constructor or
    tagged-template expression, directly or as the name of a property
    access, a configured tag of the resolved signature is the result,
    whatever the other services of the type checker answer; the result is
    that of the symbol path where the signature has no configured tag and
    where the identifier is not a call target. *)
Theorem signature_tags_take_precedence (options : Options) (utils : TsUtils)
    (tc : TypeChecker) (node : NodeInfo) (parent : NodeRef) :
  (forall call t,
      calleeOf node parent = Some call ->
      getSignatureUnwantedTags options utils (getResolvedSignature tc call)
      = Some t ->
      forall tc',
        getResolvedSignature tc' call = getResolvedSignature tc call ->
        getUnwantedTags options utils tc' node parent = Some t)
  /\ (forall call,
      getCallExpresion node parent = Some call ->
      getSignatureUnwantedTags options utils (getResolvedSignature tc call)
      = None ->
      getUnwantedTags options utils tc node parent
      = symbolPath options utils tc node parent)
  /\ (getCallExpresion node parent = None ->
      getUnwantedTags options utils tc node parent
      = symbolPath options utils tc node parent).
Proof.
  unfold getUnwantedTags, signaturePath. repeat split.
  - intros call t C S tc' E.
    rewrite (calleeOf_getCallExpresion _ _ _ C), E, S. reflexivity.
  - intros call C S. now rewrite C, S.
  - intros C. now rewrite C.
Qed.

(** C2 at the call [helloWorld("x")] of the documented function. *)
Lemma signature_tags_take_precedence_witness :
  getUnwantedTags Samples.contactArchitecture Samples.plainUtils
    Samples.noSymbols Samples.identF Samples.callF = None
  /\ getUnwantedTags Samples.contactArchitecture Samples.plainUtils
       Samples.checkerCall Samples.calledHello Samples.callHello
     = Some "Ping the owning team first".
Proof.
  split.
  - destruct (signature_tags_take_precedence Samples.contactArchitecture
                Samples.plainUtils Samples.noSymbols Samples.identF
                Samples.callF) as (_ & H & _).
    rewrite (H Samples.callF eq_refl eq_refl). reflexivity.
  - destruct (signature_tags_take_precedence Samples.contactArchitecture
                Samples.plainUtils Samples.checkerCall Samples.calledHello
                Samples.callHello) as (H & _).
    exact (H Samples.callHello "Ping the owning team first" eq_refl eq_refl
             Samples.checkerCall eq_refl).
Defined.

(** ** Functions and methods at a call *)




(** ** Aliases *)

Lemma isSymbolFlagSet_Alias (symbol : Symbol) :
  isSymbolFlagSet symbol SymbolFlags_Alias = hasAliasFlag symbol.
Proof.
  unfold isSymbolFlagSet, hasAliasFlag.
  change SymbolFlags_Alias with (2 ^ 21)%Z.
  destruct (Z.testbit (flags symbol) 21) eqn:B.
  - apply negb_true_iff, Z.eqb_neq. intros E.
    assert (H : Z.testbit (Z.land (flags symbol) (2 ^ 21)) 21 = true).
    { rewrite Z.land_spec, B, Z.pow2_bits_true; [reflexivity | lia]. }
    rewrite E, Z.bits_0 in H. discriminate.
  - apply negb_false_iff, Z.eqb_eq, Z.bits_inj'. intros n Hn.
    rewrite Z.land_spec, Z.bits_0.
    destruct (Z.eq_dec n 21) as [->|Hne].
    + now rewrite B.
    + rewrite (Z.pow2_bits_false 21 n) by lia. apply andb_false_r.
Qed.

(** C7: on the symbol path a symbol that carries the alias flag is
    replaced by its aliased symbol, and it is the declarations and the tags
    of the aliased symbol that the function-or-method check and the match
    test read. *)
Theorem alias_is_unwrapped (options : Options) (utils : TsUtils)
    (tc : TypeChecker) (node : NodeInfo) (parent : NodeRef)
    (symbol : Symbol) :
  signaturePath options utils tc node parent = None ->
  lookupSymbol utils tc node parent = Some symbol ->
  hasAliasFlag symbol = true ->
  getUnwantedTags options utils tc node parent
  = if isDefined (getCallExpresion node parent)
       && isFunctionOrMethod (declarations (getAliasedSymbol tc symbol))
    then None
    else getSymbolUnwantedTags options utils (getAliasedSymbol tc symbol).
Proof.
  intros S L A. unfold getUnwantedTags, symbolPath, followAlias.
  now rewrite S, L, isSymbolFlagSet_Alias, A.
Qed.

(** C7 at [const f = helloWorld], where [helloWorld] is imported: the tag
    of the target of the import is found. *)
Lemma alias_is_unwrapped_witness :
  getUnwantedTags Samples.contactArchitecture Samples.plainUtils
    Samples.checkerHello Samples.identHello Samples.declarationOfF
  = Some "Ping the owning team first".
Proof.
  rewrite (alias_is_unwrapped Samples.contactArchitecture Samples.plainUtils
             Samples.checkerHello Samples.identHello Samples.declarationOfF
             Samples.aliasHello eq_refl eq_refl eq_refl).
  reflexivity.
Defined.

(** ** Services that raise *)

Section Answering.

Variable options : Options.
Variable utils : TsUtils.
Variable tc : TypeChecker.

Lemma signaturePath_answering (node : NodeInfo) (parent : NodeRef) :
  Host.signaturePath options utils (answering tc) node parent
  = Returned (signaturePath options utils tc node parent).
Proof.
  unfold Host.signaturePath, signaturePath.
  now destruct (getCallExpresion node parent).
Qed.

Lemma lookupSymbol_answering (node : NodeInfo) (parent : NodeRef) :
  Host.lookupSymbol utils (answering tc) node parent
  = Returned (lookupSymbol utils tc node parent).
Proof.
  unfold Host.lookupSymbol, lookupSymbol.
  destruct parent as [file|p grand]; [reflexivity|].
  destruct (kind p); try reflexivity.
  - now destruct (sameNode (name p) node).
  - now destruct (sameNode (name p) node
                  && isReassignmentTarget utils (Inner node (Inner p grand))).
Qed.

Lemma followAlias_answering (symbol : option Symbol) :
  Host.followAlias (answering tc) symbol = Returned (followAlias tc symbol).
Proof.
  destruct symbol as [s|]; simpl; [|reflexivity].
  now destruct (isSymbolFlagSet s SymbolFlags_Alias).
Qed.

Lemma getUnwantedTags_answering (node : NodeInfo) (parent : NodeRef) :
  Host.getUnwantedTags options utils (answering tc) node parent
  = Returned (getUnwantedTags options utils tc node parent).
Proof.
  unfold Host.getUnwantedTags, getUnwantedTags, symbolPath.
  rewrite signaturePath_answering. cbn [andThen].
  destruct (signaturePath options utils tc node parent); [reflexivity|].
  rewrite lookupSymbol_answering. cbn [andThen].
  rewrite followAlias_answering. cbn [andThen].
  destruct (followAlias tc (lookupSymbol utils tc node parent)) as [s|];
    [|reflexivity].
  now destruct (isDefined (getCallExpresion node parent)
                && isFunctionOrMethod (declarations s)).
Qed.

Lemma forEachChild_answering
    (f : Node -> WalkContext -> Outcome (option unit * WalkContext))
    (g : Node -> WalkContext -> option unit * WalkContext)
    (cs : list Node) :
  Forall (fun c => forall ctx, f c ctx = Returned (g c ctx)) cs ->
  forall ctx, Host.forEachChild f cs ctx = Returned (forEachChild g cs ctx).
Proof.
  induction 1 as [|c cs Hc _ IH]; intros ctx; simpl; [reflexivity|].
  rewrite Hc. destruct (g c ctx) as [[r|] ctx']; [reflexivity | apply IH].
Qed.

Lemma cb_answering (node : Node) :
  forall parent ctx,
    Host.cb options utils (answering tc) parent node ctx
    = Returned (cb options utils tc parent node ctx).
Proof.
  induction node as [i cs IH] using Node_tree_ind. intros parent ctx.
  assert (Hrec :
    Host.forEachChild (Host.cb options utils (answering tc) (Inner i parent))
      cs ctx
    = Returned (forEachChild (cb options utils tc (Inner i parent)) cs ctx)).
  { apply forEachChild_answering. apply Forall_forall. intros c Hc ctx'.
    rewrite Forall_forall in IH. apply (IH c Hc). }
  cbn [Host.cb cb].
  destruct (kind i); try exact Hrec; try reflexivity.
  destruct (negb (isDeclaration utils i parent)); [|reflexivity].
  rewrite getUnwantedTags_answering. simpl.
  now destruct (getUnwantedTags options utils tc i parent).
Qed.

(** With services that answer, the walk over services that may raise is
    the walk above. *)
Lemma applyWithFunction_answering (sf : SourceFileNode) :
  Host.applyWithFunction options utils (answering tc) sf
  = Returned (applyWithFunction options utils tc sf).
Proof.
  unfold Host.applyWithFunction, Host.walk, applyWithFunction, walk.
  rewrite (forEachChild_answering _
             (cb options utils tc
                (SourceFileRef (fileName (sourceFile (mkContext sf [])))))).
  - reflexivity.
  - apply Forall_forall. intros c _ ctx. apply cb_answering.
Qed.

(** A service that raises where the resolver calls it ends the resolver. *)
Lemma getUnwantedTags_raises_with_lookup (node p : NodeInfo)
    (literal : NodeRef) (host : Host.TypeChecker) :
  kind p = PropertyAssignment ->
  sameNode (name p) node = true ->
  Host.getPropertySymbolOfDestructuringAssignment host
    (Inner node (Inner p literal)) = Raised ->
  Host.getUnwantedTags options utils host node (Inner p literal) = Raised.
Proof.
  intros K N R.
  unfold Host.getUnwantedTags, Host.signaturePath, Host.lookupSymbol,
    getCallExpresion, unwindPropertyAccess.
  rewrite K. cbn [callLikeParent]. rewrite K, N, R. reflexivity.
Qed.

End Answering.

(** C9, at the name [a] of [delete {a: 1}; helloWorld("x");]: the object
    literal is a reassignment target for tsutils, so that [a] is not a
    declaration and the resolver asks for the property symbol of a
    destructuring assignment; the type checker raises there, and so do the
    resolver and the walk, which reports nothing, not even the call that
    follows.  At the name of the shorthand property of [delete {a}] the
    resolver tests the name itself, does not ask, and returns. *)
Theorem resolver_raises_below_delete :
  isDeclaration Samples.deleteUtils Samples.nameA Samples.propertyA = false
  /\ Host.getUnwantedTags Samples.contactArchitecture Samples.deleteUtils
       Samples.assertingChecker Samples.nameA Samples.propertyA
     = Raised
  /\ Host.applyWithFunction Samples.contactArchitecture Samples.deleteUtils
       Samples.assertingChecker Samples.deleteProgram
     = Raised
  /\ Host.applyWithFunction Samples.contactArchitecture Samples.deleteUtils
       Samples.assertingChecker
       (mkSourceFile "sample.ts" (tl (statements Samples.deleteProgram)))
     = Returned
         [mkFailure (Inner Samples.calledHello Samples.callHello)
            "Found disallowed tag at helloWorld: Ping the owning team first"]
  /\ Host.getUnwantedTags Samples.contactArchitecture Samples.deleteUtils
       Samples.assertingChecker Samples.nameA Samples.shorthandA
     = Returned (Some "Ping the owning team first").
Proof.
  split; [reflexivity|].
  split.
  - apply getUnwantedTags_raises_with_lookup; reflexivity.
  - repeat split.
Qed.

(** ** The scenarios of the specification, run *)

Example readme_configuration :
  applyWithProgram
    (Some [ArgBoolean true; ArgArray ["ContactArchitectureBeforeUse"]])
    Samples.plainUtils Samples.checkerCall Samples.program
  = Some [mkFailure (Inner Samples.calledHello Samples.callHello)
            "Found disallowed tag at helloWorld: Ping the owning team first"].
Proof. reflexivity. Qed.

Example short_configuration_form :
  applyWithProgram (Some [ArgArray ["ContactArchitectureBeforeUse"]])
    Samples.plainUtils Samples.checkerCall Samples.program
  = Some [].
Proof. reflexivity. Qed.

Example declared_and_never_referenced :
  applyWithFunction Samples.contactArchitecture Samples.plainUtils
    Samples.checkerCall Samples.declaredOnly = [].
Proof. reflexivity. Qed.

Example second_of_two_tags :
  map failure_message
    (applyWithFunction Samples.twoTags Samples.plainUtils Samples.checkerProp
       Samples.propertyRead)
  = ["Found disallowed tag at prop: use other"].
Proof. reflexivity. Qed.

Example destructuring_names :
  isDeclaration Samples.plainUtils Samples.identA Samples.bindingAB = false
  /\ isDeclaration Samples.plainUtils Samples.identB Samples.bindingAB = true.
Proof. split; reflexivity. Qed.

Example white_space_only_text :
  FAILURE_STRING "f" " " = "Found disallowed tag at f: ".
Proof. reflexivity. Qed.

Example tag_names_are_case_sensitive :
  findUnwantedTagsTag Samples.contactArchitecture
    [mkTagInfo "contactarchitecturebeforeuse" (Some "lower case");
     mkTagInfo "ContactArchitectureBeforeUse" None;
     mkTagInfo "ContactArchitectureBeforeUse" (Some "second")]
  = Some "".
Proof. reflexivity. Qed.

Example string_argument_is_iterated :
  parseOptions (Some [ArgBoolean true; ArgString "ab"])
  = Some (mkOptions ["a"; "b"]).
Proof. reflexivity. Qed.

(** * Further properties of the code *)

(** ** The scan of the declarations (typescript before 2.3.0) *)

Lemma findInCommentTags_app (options : Options) (l1 l2 : list JSDocTag) :
  findInCommentTags options (l1 ++ l2)
  = match findInCommentTags options l1 with
    | Some r => Some r
    | None => findInCommentTags options l2
    end.
Proof.
  rewrite !findInCommentTags_firstMatch. apply firstMatch_app.
Qed.

Lemma findInComments_commentTags (options : Options) (cs : list JSDoc) :
  findInComments options cs = findInCommentTags options (commentTags cs).
Proof.
  now rewrite findInComments_firstMatch, findInCommentTags_firstMatch.
Qed.

Lemma scanDeclarations_declarationTags (options : Options) (utils : TsUtils)
    (ds : list NodeRef) :
  scanDeclarations options utils ds
  = findInCommentTags options (declarationTags utils ds).
Proof.
  induction ds as [|d ds IH]; [reflexivity|].
  unfold declarationTags in *. cbn [scanDeclarations flat_map].
  rewrite findInCommentTags_app. unfold getUnwantedTagsFromDeclaration.
  rewrite findInComments_commentTags.
  destruct (findInCommentTags options
              (commentTags (getJsDoc utils (documentedNode utils d))));
    [reflexivity | exact IH].
Qed.

(** X10: scanning the declarations of a symbol one after the other, comment
    by comment, finds what one scan of all their tags in order finds: the
    text of the first configured tag of the first declaration that has
    one. *)
Theorem declarations_scanned_as_one (options : Options) (utils : TsUtils)
    (ds : list NodeRef) :
  getUnwantedTagsFromDeclarations options utils (Some ds)
  = findInCommentTags options (declarationTags utils ds)
  /\ (forall s,
        getUnwantedTagsFromDeclarations options utils (Some ds) = Some s
        <-> exists before t after,
              declarationTags utils ds = (before ++ t :: after)%list
              /\ Forall (fun u => ~ In (tagName u) (opt_tags options)) before
              /\ In (tagName t) (opt_tags options)
              /\ s = match comment t with None => "" | Some x => x end).
Proof.
  split; [apply scanDeclarations_declarationTags|].
  intros s. cbn [getUnwantedTagsFromDeclarations].
  rewrite scanDeclarations_declarationTags, findInCommentTags_firstMatch.
  apply firstMatch_Some.
Qed.

Lemma findUnwantedTagsTag_tagInfoOfNode (options : Options)
    (l : list JSDocTag) :
  findUnwantedTagsTag options (map tagInfoOfNode l)
  = findInCommentTags options l.
Proof.
  induction l as [|t l IH]; simpl; [reflexivity|]. now rewrite IH.
Qed.

(** X11: the tag query and the fallback for older compilers agree.  Where
    the tag query of a symbol returns the tags of the comments of its
    declarations, and that of a signature the tags of the comments of its
    declaration, the result is the one obtained without tag query. *)
Theorem tag_query_agrees_with_fallback (options : Options) (utils : TsUtils) :
  (forall fl ds,
      getSymbolUnwantedTags options utils
        (mkSymbol fl (Some (map tagInfoOfNode (declarationTags utils ds)))
           (Some ds))
      = getSymbolUnwantedTags options utils (mkSymbol fl None (Some ds)))
  /\ (forall d,
      getSignatureUnwantedTags options utils
        (Some (mkSignature
                 (Some (map tagInfoOfNode (commentTags (getJsDoc utils d))))
                 (Some d)))
      = getSignatureUnwantedTags options utils
          (Some (mkSignature None (Some d)))).
Proof.
  split.
  - intros fl ds. unfold getSymbolUnwantedTags; simpl.
    now rewrite findUnwantedTagsTag_tagInfoOfNode,
      scanDeclarations_declarationTags.
  - intros d. simpl. unfold getUnwantedTagsFromDeclaration.
    now rewrite findUnwantedTagsTag_tagInfoOfNode,
      findInComments_commentTags.
Qed.

(** ** The configured tags as a set *)

Section MoreTags.

Variables options options' : Options.
Variable utils : TsUtils.
Variable tc : TypeChecker.
Hypothesis more : forall s, In s (opt_tags options) -> In s (opt_tags options').

Lemma includes_more (s : string) :
  includes (opt_tags options) s = true ->
  includes (opt_tags options') s = true.
Proof. rewrite !includes_In. apply more. Qed.

Lemma firstMatch_more {T : Type} (nameOf : T -> string)
    (textOf : T -> option string) (l : list T) :
  firstMatch nameOf textOf (opt_tags options) l <> None ->
  firstMatch nameOf textOf (opt_tags options') l <> None.
Proof.
  induction l as [|a l IH]; simpl; [congruence|].
  destruct (includes (opt_tags options) (nameOf a)) eqn:I.
  - rewrite (includes_more _ I). discriminate.
  - intros H. destruct (includes (opt_tags options') (nameOf a));
      [discriminate | exact (IH H)].
Qed.

Lemma getSymbolUnwantedTags_more (symbol : Symbol) :
  getSymbolUnwantedTags options utils symbol <> None ->
  getSymbolUnwantedTags options' utils symbol <> None.
Proof.
  unfold getSymbolUnwantedTags.
  destruct (symbol_getJsDocTags symbol) as [l|].
  - rewrite !findUnwantedTagsTag_firstMatch. apply firstMatch_more.
  - destruct (declarations symbol) as [ds|]; simpl; [|congruence].
    rewrite !scanDeclarations_declarationTags,
      !findInCommentTags_firstMatch.
    apply firstMatch_more.
Qed.

Lemma getSignatureUnwantedTags_more (signature : option Signature) :
  getSignatureUnwantedTags options utils signature <> None ->
  getSignatureUnwantedTags options' utils signature <> None.
Proof.
  destruct signature as [sg|]; simpl; [|congruence].
  destruct (signature_getJsDocTags sg) as [l|].
  - rewrite !findUnwantedTagsTag_firstMatch. apply firstMatch_more.
  - destruct (declaration sg) as [d|]; [|congruence].
    unfold getUnwantedTagsFromDeclaration.
    rewrite !findInComments_firstMatch. apply firstMatch_more.
Qed.

Lemma getUnwantedTags_more (node : NodeInfo) (parent : NodeRef) :
  getUnwantedTags options utils tc node parent <> None ->
  getUnwantedTags options' utils tc node parent <> None.
Proof.
  unfold getUnwantedTags, signaturePath, symbolPath.
  destruct (getCallExpresion node parent) as [call|]; simpl.
  - pose proof (getSignatureUnwantedTags_more
                  (getResolvedSignature tc call)) as S.
    destruct (getSignatureUnwantedTags options utils
                (getResolvedSignature tc call)).
    + intros _.
      destruct (getSignatureUnwantedTags options' utils
                  (getResolvedSignature tc call));
        [discriminate | exfalso; apply S; [discriminate | reflexivity]].
    + destruct (getSignatureUnwantedTags options' utils
                  (getResolvedSignature tc call)); [discriminate|].
      destruct (followAlias tc (lookupSymbol utils tc node parent))
        as [s|]; [|congruence].
      destruct (isFunctionOrMethod (declarations s)); [congruence|].
      apply getSymbolUnwantedTags_more.
  - destruct (followAlias tc (lookupSymbol utils tc node parent))
      as [s|]; [|congruence].
    apply getSymbolUnwantedTags_more.
Qed.

Lemma report_more (r : NodeRef) :
  map failure_node (report options utils tc r)
  = map failure_node (report options' utils tc r)
  \/ (report options utils tc r = []
      /\ map failure_node (report options' utils tc r) = [r]).
Proof.
  destruct r as [file|i parent]; simpl; [now left|].
  destruct (kind i); try (now left).
  destruct (isDeclaration utils i parent); [now left|].
  pose proof (getUnwantedTags_more i parent) as M.
  destruct (getUnwantedTags options utils tc i parent) as [t|];
    destruct (getUnwantedTags options' utils tc i parent) as [t'|];
    simpl; auto.
  exfalso. apply M; [discriminate | reflexivity].
Qed.

Lemma reported_nodes_more (l : list NodeRef) :
  incl (map failure_node (flat_map (report options utils tc) l))
       (map failure_node (flat_map (report options' utils tc) l))
  /\ List.length (flat_map (report options utils tc) l)
     <= List.length (flat_map (report options' utils tc) l).
Proof.
  induction l as [|r l [IHi IHl]]; simpl.
  - split; [apply incl_refl | lia].
  - rewrite !map_app, !length_app.
    destruct (report_more r) as [E|[E E']].
    + split.
      * rewrite E. apply incl_app;
          [apply incl_appl, incl_refl | apply incl_appr, IHi].
      * apply (f_equal (@List.length _)) in E.
        rewrite !length_map in E. lia.
    + rewrite E. simpl. split; [apply incl_appr, IHi | lia].
Qed.

End MoreTags.

(** X5: configuring more tag names loses no reported node.  Where every
    tag name of one configuration is a tag name of another, every node
    reported under the first is reported under the second, and the second
    reports at least as many failures. *)
Theorem more_tags_report_more (options options' : Options) (utils : TsUtils)
    (tc : TypeChecker) (sf : SourceFileNode) :
  (forall s, In s (opt_tags options) -> In s (opt_tags options')) ->
  incl (map failure_node (applyWithFunction options utils tc sf))
       (map failure_node (applyWithFunction options' utils tc sf))
  /\ List.length (applyWithFunction options utils tc sf)
     <= List.length (applyWithFunction options' utils tc sf).
Proof.
  intros H. rewrite !applyWithFunction_reports.
  now apply reported_nodes_more.
Qed.

(** X5 at the sample program, a second tag name added. *)
Lemma more_tags_report_more_witness :
  incl (map failure_node
          (applyWithFunction Samples.contactArchitecture Samples.plainUtils
             Samples.checkerCall Samples.program))
       (map failure_node
          (applyWithFunction Samples.twoTags Samples.plainUtils
             Samples.checkerCall Samples.program)).
Proof.
  apply (more_tags_report_more Samples.contactArchitecture Samples.twoTags).
  intros s [<-|[]]. left. reflexivity.
Defined.

Section SameTags.

Variables options options' : Options.
Variable utils : TsUtils.
Variable tc : TypeChecker.
Hypothesis same :
  forall s, In s (opt_tags options) <-> In s (opt_tags options').

Lemma includes_same (s : string) :
  includes (opt_tags options) s = includes (opt_tags options') s.
Proof.
  apply eq_true_iff_eq. rewrite !includes_In. apply same.
Qed.

Lemma firstMatch_same {T : Type} (nameOf : T -> string)
    (textOf : T -> option string) (l : list T) :
  firstMatch nameOf textOf (opt_tags options) l
  = firstMatch nameOf textOf (opt_tags options') l.
Proof.
  induction l as [|a l IH]; simpl; [reflexivity|].
  now rewrite includes_same, IH.
Qed.

Lemma getSymbolUnwantedTags_same (symbol : Symbol) :
  getSymbolUnwantedTags options utils symbol
  = getSymbolUnwantedTags options' utils symbol.
Proof.
  unfold getSymbolUnwantedTags.
  destruct (symbol_getJsDocTags symbol) as [l|].
  - rewrite !findUnwantedTagsTag_firstMatch. apply firstMatch_same.
  - destruct (declarations symbol) as [ds|]; simpl; [|reflexivity].
    rewrite !scanDeclarations_declarationTags,
      !findInCommentTags_firstMatch.
    apply firstMatch_same.
Qed.

Lemma getSignatureUnwantedTags_same (signature : option Signature) :
  getSignatureUnwantedTags options utils signature
  = getSignatureUnwantedTags options' utils signature.
Proof.
  destruct signature as [sg|]; simpl; [|reflexivity].
  destruct (signature_getJsDocTags sg) as [l|].
  - rewrite !findUnwantedTagsTag_firstMatch. apply firstMatch_same.
  - destruct (declaration sg) as [d|]; [|reflexivity].
    unfold getUnwantedTagsFromDeclaration.
    rewrite !findInComments_firstMatch. apply firstMatch_same.
Qed.

Lemma getUnwantedTags_same (node : NodeInfo) (parent : NodeRef) :
  getUnwantedTags options utils tc node parent
  = getUnwantedTags options' utils tc node parent.
Proof.
  unfold getUnwantedTags, signaturePath, symbolPath.
  destruct (getCallExpresion node parent) as [call|]; simpl;
    rewrite ?getSignatureUnwantedTags_same;
    destruct (followAlias tc (lookupSymbol utils tc node parent)) as [s|];
    rewrite ?getSymbolUnwantedTags_same; reflexivity.
Qed.

Lemma report_same (r : NodeRef) :
  report options utils tc r = report options' utils tc r.
Proof.
  destruct r as [file|i parent]; simpl; [reflexivity|].
  now rewrite getUnwantedTags_same.
Qed.

End SameTags.

(** X6: only the set of the configured tag names counts.  Two
    configurations with the same tag names, in whatever order and with
    whatever repetitions, give the same failures with the same messages. *)
Theorem tag_order_is_irrelevant (options options' : Options)
    (utils : TsUtils) (tc : TypeChecker) (sf : SourceFileNode) :
  (forall s, In s (opt_tags options) <-> In s (opt_tags options')) ->
  applyWithFunction options utils tc sf
  = applyWithFunction options' utils tc sf.
Proof.
  intros H. rewrite !applyWithFunction_reports.
  apply flat_map_agree. intros r _. now apply report_same.
Qed.

(** X6 at the sample of the property read, the two tag names swapped and
    one repeated. *)
Lemma tag_order_is_irrelevant_witness :
  applyWithFunction Samples.twoTags Samples.plainUtils Samples.checkerProp
    Samples.propertyRead
  = applyWithFunction
      (mkOptions ["MarkedForDeletion"; "ContactArchitectureBeforeUse";
                  "MarkedForDeletion"])
      Samples.plainUtils Samples.checkerProp Samples.propertyRead.
Proof.
  apply tag_order_is_irrelevant. intros s. simpl. tauto.
Defined.

(** ** The shape of the walk *)

(** X2: the walk returns undefined, leaves the source file of the context
    and the failures already in it as they are, and appends its own; the
    failures of a file are those of its statements, one statement after the
    other. *)
Theorem walk_appends_in_order (options : Options) (utils : TsUtils)
    (tc : TypeChecker) :
  (forall ctx,
      walk options utils tc ctx
      = (None,
         mkContext (sourceFile ctx)
           (failures ctx
            ++ applyWithFunction options utils tc (sourceFile ctx))))
  /\ (forall file before after,
      applyWithFunction options utils tc
        (mkSourceFile file (before ++ after))
      = (applyWithFunction options utils tc (mkSourceFile file before)
         ++ applyWithFunction options utils tc (mkSourceFile file after))%list).
Proof.
  split.
  - intros ctx. rewrite walk_appends. now rewrite applyWithFunction_reports.
  - intros file before after. rewrite !applyWithFunction_reports.
    unfold visitedInFile. simpl.
    now rewrite !flat_map_app.
Qed.

Lemma visited_prune (node : Node) :
  forall parent, visited parent (prune node) = visited parent node.
Proof.
  induction node as [i cs IH] using Node_tree_ind. intros parent.
  cbn [prune visited]. f_equal.
  assert (H : flat_map (visited (Inner i parent)) (map prune cs)
              = flat_map (visited (Inner i parent)) cs).
  { induction IH as [|c cs Hc _ IHcs]; simpl; [reflexivity|].
    now rewrite Hc, IHcs. }
  destruct (kind i); try reflexivity; exact H.
Qed.

(** X3: what is below an identifier or below an import or export
    declaration has no part in the result: the walk of a file and the walk
    of the file with those children removed report the same failures. *)
Theorem walk_ignores_unentered_children (options : Options) (utils : TsUtils)
    (tc : TypeChecker) (sf : SourceFileNode) :
  applyWithFunction options utils tc (pruneFile sf)
  = applyWithFunction options utils tc sf.
Proof.
  rewrite !applyWithFunction_reports. f_equal.
  unfold visitedInFile, pruneFile. simpl.
  induction (statements sf) as [|c cs IH]; simpl; [reflexivity|].
  now rewrite visited_prune, IH.
Qed.

Lemma reports_bounded (options : Options) (utils : TsUtils)
    (tc : TypeChecker) (node : Node) :
  forall parent,
    List.length (flat_map (report options utils tc) (visited parent node))
    <= countIdentifiers node.
Proof.
  induction node as [i cs IH] using Node_tree_ind. intros parent.
  cbn [visited countIdentifiers flat_map]. rewrite length_app.
  assert (H : List.length
                (flat_map (report options utils tc)
                   (flat_map (visited (Inner i parent)) cs))
              <= list_sum (map countIdentifiers cs)).
  { induction IH as [|c cs Hc _ IHcs]; simpl; [lia|].
    rewrite flat_map_app, length_app. specialize (Hc (Inner i parent)). lia. }
  pose proof (report_at_most_one options utils tc (Inner i parent)) as One.
  unfold report in *.
  destruct (kind i); simpl in *; lia.
Qed.

(** X4: a walk reports at most as many failures as the file has identifier
    nodes. *)
Theorem failures_bounded_by_identifiers (options : Options) (utils : TsUtils)
    (tc : TypeChecker) (sf : SourceFileNode) :
  List.length (applyWithFunction options utils tc sf)
  <= list_sum (map countIdentifiers (statements sf)).
Proof.
  rewrite applyWithFunction_reports. unfold visitedInFile.
  induction (statements sf) as [|c cs IH]; simpl; [lia|].
  rewrite flat_map_app, length_app.
  pose proof (reports_bounded options utils tc c
                (SourceFileRef (fileName sf))).
  lia.
Qed.

(** ** The services the resolver consults *)

Lemma lookupSymbol_without_reassignment (utils : TsUtils) (tc : TypeChecker)
    (g : NodeRef -> option Symbol) (i : NodeInfo) (parent : NodeRef) :
  (forall r, isReassignmentTarget utils r = false) ->
  isDeclaration utils i parent = false ->
  lookupSymbol utils (withPropertySymbol tc g) i parent
  = lookupSymbol utils tc i parent.
Proof.
  intros NoR D. unfold lookupSymbol, isDeclaration in *.
  destruct parent as [file|p grand]; [reflexivity|].
  destruct (kind p); try reflexivity.
  - rewrite NoR, andb_true_r in D. now rewrite D.
  - now rewrite NoR, andb_false_r.
Qed.

(** X7: in a file without reassignment targets the lookup of the property
    symbol of a destructuring assignment plays no part: whatever that
    service answers, the walk reports the same failures. *)
Theorem destructuring_lookup_needs_reassignment (options : Options)
    (utils : TsUtils) (tc : TypeChecker) (g : NodeRef -> option Symbol)
    (sf : SourceFileNode) :
  (forall r, isReassignmentTarget utils r = false) ->
  applyWithFunction options utils (withPropertySymbol tc g) sf
  = applyWithFunction options utils tc sf.
Proof.
  intros NoR. rewrite !applyWithFunction_reports.
  apply flat_map_agree. intros [file|i parent] _; [reflexivity|].
  simpl. destruct (kind i); try reflexivity.
  destruct (isDeclaration utils i parent) eqn:D; [reflexivity|].
  unfold getUnwantedTags, signaturePath, symbolPath.
  now rewrite (lookupSymbol_without_reassignment utils tc g i parent NoR D).
Qed.

(** X7 at the sample of the property read, the service answering with a
    documented symbol everywhere. *)
Lemma destructuring_lookup_needs_reassignment_witness :
  applyWithFunction Samples.twoTags Samples.plainUtils
    (withPropertySymbol Samples.checkerProp
       (fun _ => Some Samples.symbolHello))
    Samples.propertyRead
  = applyWithFunction Samples.twoTags Samples.plainUtils Samples.checkerProp
      Samples.propertyRead.
Proof.
  apply destructuring_lookup_needs_reassignment. reflexivity.
Defined.

(** X8: an identifier directly below a binding element, whichever slot it
    is in, is resolved as the property of its own name of the type of the
    binding pattern: the result is the match in the tags of that property,
    aliases followed; neither a signature nor the symbol at the location is
    consulted, and the function-or-method check does not apply. *)
Theorem binding_element_resolves_by_name (options : Options)
    (utils : TsUtils) (tc : TypeChecker) (node p : NodeInfo)
    (pattern : NodeRef) :
  kind p = BindingElement ->
  getUnwantedTags options utils tc node (Inner p pattern)
  = match followAlias tc
            (getProperty (getTypeAtLocation tc pattern) (text node)) with
    | Some symbol => getSymbolUnwantedTags options utils symbol
    | None => None
    end.
Proof.
  intros K.
  unfold getUnwantedTags, signaturePath, symbolPath, getCallExpresion,
    lookupSymbol, unwindPropertyAccess.
  rewrite K. cbn [callLikeParent]. rewrite K. reflexivity.
Qed.

(** X8 at [const {a = dflt} = obj]: the initializer [dflt] is reported with
    the tag of the property [dflt] of the type of [obj]. *)
Lemma binding_element_resolves_by_name_witness :
  getUnwantedTags Samples.twoTags Samples.plainUtils Samples.checkerDflt
    Samples.identDflt Samples.bindingDefault
  = Some "use other".
Proof.
  unfold Samples.bindingDefault.
  rewrite binding_element_resolves_by_name; reflexivity.
Defined.

(** X9: the expression that [getCallExpresion] returns is a call, a
    constructor call or a tagged template, and it is the parent of the
    node, or the parent of a property access of which the node is the name;
    unless it is a tagged template, the node, or that property access, is
    the expression that is called. *)
Theorem getCallExpresion_sound (node : NodeInfo) (parent call : NodeRef) :
  getCallExpresion node parent = Some call ->
  isCallLikeKind (kindOf call) = true
  /\ (call = parent
      \/ exists p, parent = Inner p call
                   /\ kind p = PropertyAccessExpression
                   /\ sameNode (name p) node = true)
  /\ (kindOf call <> TaggedTemplateExpression ->
      calleeOf node parent = Some call).
Proof.
  assert (Direct : forall n par c,
             callLikeParent n par = Some c ->
             c = par /\ isCallLikeKind (kindOf c) = true
             /\ (kindOf c <> TaggedTemplateExpression ->
                 directCallee n par = true)).
  { intros n par c. unfold callLikeParent, directCallee.
    destruct par as [file|q g]; [discriminate|].
    destruct (kind q) eqn:K; try discriminate.
    - intros E. injection E as <-. simpl. rewrite K.
      repeat split. congruence.
    - destruct (sameNode (expression q) n); [|discriminate].
      intros E. injection E as <-. simpl. rewrite K. repeat split.
    - destruct (sameNode (expression q) n); [|discriminate].
      intros E. injection E as <-. simpl. rewrite K. repeat split. }
  unfold getCallExpresion, unwindPropertyAccess, calleeOf.
  destruct parent as [file|p grand]; [discriminate|].
  destruct (kind p) eqn:K;
    try (intros H; destruct (Direct _ _ _ H) as (-> & Hk & Hd);
         split; [exact Hk|]; split; [now left|];
         intros NT; now rewrite (Hd NT)).
  destruct (sameNode (name p) node) eqn:N.
  - intros H. destruct (Direct _ _ _ H) as (-> & Hk & Hd).
    split; [exact Hk|]. split; [right; exists p; auto|].
    intros NT. unfold directCallee at 1. rewrite K. simpl.
    now rewrite (Hd NT).
  - intros H. destruct (Direct _ _ _ H) as (-> & Hk & Hd).
    simpl in Hk. rewrite K in Hk. discriminate.
Qed.

(** X9 at [obj.helloWorld("x")]. *)
Lemma getCallExpresion_sound_witness :
  calleeOf Samples.identMethod Samples.methodAccess
  = Some Samples.methodCall.
Proof.
  apply (getCallExpresion_sound Samples.identMethod Samples.methodAccess
           Samples.methodCall eq_refl).
  discriminate.
Defined.

(** ** A string in the place of the tag list *)

Lemma append_empty_r (s : string) : s ++ "" = s.
Proof. induction s as [|c s IH]; simpl; [reflexivity | now rewrite IH]. Qed.

Lemma concat_empty_cons (x : string) (xs : list string) :
  String.concat "" (x :: xs) = x ++ String.concat "" xs.
Proof.
  destruct xs as [|y ys]; simpl; [now rewrite append_empty_r | reflexivity].
Qed.

Lemma characters_concat (s : string) : String.concat "" (characters s) = s.
Proof.
  induction s as [|c s IH]; [reflexivity|].
  cbn [characters]. rewrite concat_empty_cons, IH. reflexivity.
Qed.

Lemma characters_single (s : string) :
  Forall (fun t => String.length t = 1) (characters s).
Proof.
  induction s as [|c s IH]; simpl; constructor; [reflexivity | exact IH].
Qed.

(** X1: a string at index 1 of the rule arguments is taken apart into its
    characters: the tag list has one name per character of the string, in
    order, so that a tag whose name is not one character long is never
    matched under such a configuration. *)
Theorem string_argument_is_split (a : RuleArgument) (s : string)
    (rest : list RuleArgument) :
  parseOptions (Some (a :: ArgString s :: rest))
  = Some (mkOptions (characters s))
  /\ String.concat "" (characters s) = s
  /\ Forall (fun t => String.length t = 1) (characters s)
  /\ (forall l,
        Forall (fun t => String.length (tagInfo_name t) <> 1) l ->
        findUnwantedTagsTag (mkOptions (characters s)) l = None).
Proof.
  split; [destruct s; reflexivity|].
  split; [apply characters_concat|].
  split; [apply characters_single|].
  intros l H. rewrite findUnwantedTagsTag_firstMatch.
  apply firstMatch_None. simpl.
  apply Forall_impl with (2 := H). intros t Ht Hin.
  pose proof (characters_single s) as S. rewrite Forall_forall in S.
  apply Ht, S, Hin.
Qed.

(** X1 at the tag name of the README given as a string: the tag of that
    name is not matched. *)
Lemma string_argument_is_split_witness :
  findUnwantedTagsTag
    (mkOptions (characters "ContactArchitectureBeforeUse"))
    [mkTagInfo "ContactArchitectureBeforeUse" (Some "Ping")]
  = None.
Proof.
  destruct (string_argument_is_split (ArgBoolean true)
              "ContactArchitectureBeforeUse" []) as (_ & _ & _ & H).
  apply H. constructor; [discriminate | constructor].
Defined.

(** ** Text of white space *)

Lemma trimStart_white (l : list ascii) :
  forallb isWhiteSpace l = true -> trimStart l = [].
Proof.
  induction l as [|c l IH]; simpl; [reflexivity|].
  destruct (isWhiteSpace c); [exact IH | discriminate].
Qed.

(** X12: a match text that is not empty and consists of white space gives
    the message that ends in the colon and a space, not the one that ends
    in the full stop. *)
Theorem white_space_text_leaves_colon (name message : string) :
  message <> "" ->
  forallb isWhiteSpace (list_ascii_of_string message) = true ->
  FAILURE_STRING name message = "Found disallowed tag at " ++ name ++ ": ".
Proof.
  intros NE W. unfold FAILURE_STRING, trim.
  destruct (String.eqb_spec message ""); [contradiction|].
  now rewrite (trimStart_white _ W).
Qed.

(** X12 at a text of a space, a tab and a line break. *)
Lemma white_space_text_leaves_colon_witness :
  FAILURE_STRING "helloWorld"
    (String " " (String "009" (String "010" "")))
  = "Found disallowed tag at helloWorld: ".
Proof.
  apply white_space_text_leaves_colon; [discriminate | reflexivity].
Defined.

(** ** One failure per node *)

Lemma NoDup_app_apart {A : Type} (l l' : list A) :
  NoDup (l ++ l') -> forall a, In a l -> ~ In a l'.
Proof.
  induction l as [|x l IH]; simpl; intros H a Ha; [contradiction|].
  apply NoDup_cons_iff in H. destruct H as [Hx Hl].
  destruct Ha as [<-|Ha].
  - intros Hin. apply Hx, in_or_app. now right.
  - now apply IH.
Qed.

Lemma NoDup_flat_map_within {A B : Type} (f g : A -> list B) (l : list A) :
  (forall x, In x l -> incl (g x) (f x)) ->
  (forall x, In x l -> NoDup (f x) -> NoDup (g x)) ->
  NoDup (flat_map f l) -> NoDup (flat_map g l).
Proof.
  induction l as [|a l IH]; simpl; intros Sub Keep H; [constructor|].
  apply NoDup_app.
  - apply Keep; [now left | now apply NoDup_app_remove_r in H].
  - apply IH.
    + intros x Hx. apply Sub. now right.
    + intros x Hx. apply Keep. now right.
    + now apply NoDup_app_remove_l in H.
  - intros b Hb Hg. apply (NoDup_app_apart _ _ H b).
    + apply (Sub a); [now left | exact Hb].
    + apply in_flat_map in Hg. destruct Hg as (x & Hx & Hbx).
      apply in_flat_map. exists x. split; [exact Hx|].
      now apply (Sub x); [right|].
Qed.

Lemma map_flat_map {A B C : Type} (f : A -> list B) (h : B -> C)
    (l : list A) :
  map h (flat_map f l) = flat_map (fun a => map h (f a)) l.
Proof.
  induction l as [|a l IH]; simpl; [reflexivity|].
  now rewrite map_app, IH.
Qed.

Lemma visited_ids (node : Node) :
  forall parent,
    incl (map refId (visited parent node)) (allIds node)
    /\ (NoDup (allIds node) -> NoDup (map refId (visited parent node))).
Proof.
  induction node as [i cs IH] using Node_tree_ind. intros parent.
  rewrite Forall_forall in IH.
  cbn [visited allIds map refId].
  assert (Below :
    incl (map refId (flat_map (visited (Inner i parent)) cs))
         (flat_map allIds cs)
    /\ (NoDup (flat_map allIds cs) ->
        NoDup (map refId (flat_map (visited (Inner i parent)) cs)))).
  { rewrite map_flat_map. split.
    - intros x Hx. apply in_flat_map in Hx. destruct Hx as (c & Hc & Hx).
      apply in_flat_map. exists c. split; [exact Hc|].
      now apply (proj1 (IH c Hc (Inner i parent))).
    - apply NoDup_flat_map_within.
      + intros c Hc. apply (proj1 (IH c Hc (Inner i parent))).
      + intros c Hc. apply (proj2 (IH c Hc (Inner i parent))). }
  destruct Below as [Sub Keep].
  assert (Empty :
    incl (nid i :: @nil nat) (nid i :: flat_map allIds cs)
    /\ (NoDup (nid i :: flat_map allIds cs) -> NoDup (nid i :: @nil nat))).
  { split; [intros x [<-|[]]; now left|].
    intros _. constructor; [intros [] | constructor]. }
  destruct (kind i); try exact Empty.
  all: split;
    [ intros x [<-|Hx]; [now left | right; now apply Sub]
    | intros H; apply NoDup_cons_iff in H; destruct H as [Hi Hcs];
      constructor; [intros Hx; apply Hi, Sub, Hx | now apply Keep] ].
Qed.

Lemma reported_nodes_within (options : Options) (utils : TsUtils)
    (tc : TypeChecker) (l : list NodeRef) :
  incl (map failure_node (flat_map (report options utils tc) l)) l
  /\ (NoDup l ->
      NoDup (map failure_node (flat_map (report options utils tc) l))).
Proof.
  induction l as [|r l [IHi IHn]]; simpl.
  - split; [apply incl_refl | constructor].
  - rewrite map_app.
    assert (One : map failure_node (report options utils tc r) = []
                  \/ map failure_node (report options utils tc r) = [r]).
    { destruct r as [file|i parent]; simpl; [now left|].
      destruct (kind i); try (now left).
      destruct (isDeclaration utils i parent); [now left|].
      destruct (getUnwantedTags options utils tc i parent);
        [now right | now left]. }
    destruct One as [E|E]; rewrite E; simpl.
    + split; [now apply incl_tl|].
      intros H. apply NoDup_cons_iff in H. now apply IHn.
    + split.
      * intros x [<-|Hx]; [now left | right; now apply IHi].
      * intros H. apply NoDup_cons_iff in H. destruct H as [Hr Hl].
        constructor; [intros Hx; apply Hr, IHi, Hx | now apply IHn].
Qed.

(** X13: in a file whose nodes have identities of their own no node is
    reported twice, and every reported node is one the walk reaches. *)
Theorem no_node_reported_twice (options : Options) (utils : TsUtils)
    (tc : TypeChecker) (sf : SourceFileNode) :
  NoDup (flat_map allIds (statements sf)) ->
  NoDup (map failure_node (applyWithFunction options utils tc sf))
  /\ incl (map failure_node (applyWithFunction options utils tc sf))
          (visitedInFile sf).
Proof.
  intros H. rewrite applyWithFunction_reports.
  destruct (reported_nodes_within options utils tc (visitedInFile sf))
    as [Sub Keep].
  split; [|exact Sub]. apply Keep.
  apply (NoDup_map_inv refId). unfold visitedInFile.
  rewrite map_flat_map. revert H. apply NoDup_flat_map_within.
  - intros c _. apply (proj1 (visited_ids c _)).
  - intros c _. apply (proj2 (visited_ids c _)).
Qed.

(** X13 at the sample program. *)
Lemma no_node_reported_twice_witness :
  NoDup (map failure_node
           (applyWithFunction Samples.contactArchitecture
              Samples.plainUtils Samples.checkerCall Samples.program)).
Proof.
  apply (no_node_reported_twice Samples.contactArchitecture
           Samples.plainUtils Samples.checkerCall Samples.program).
  simpl.
  repeat (constructor; [simpl; intuition discriminate|]).
  constructor.
Defined.

(** ** Calls of functions and methods *)

(** X14: at a call target whose symbol, aliases followed, has a function or
    a method as its first declaration, the result is the match in the tags
    of the resolved signature and nothing else: the tags of the symbol are
    not read. *)
Theorem call_of_function_reads_signature_only (options : Options)
    (utils : TsUtils) (tc : TypeChecker) (node : NodeInfo)
    (parent call : NodeRef) (symbol : Symbol) :
  getCallExpresion node parent = Some call ->
  followAlias tc (lookupSymbol utils tc node parent) = Some symbol ->
  isFunctionOrMethod (declarations symbol) = true ->
  getUnwantedTags options utils tc node parent
  = getSignatureUnwantedTags options utils (getResolvedSignature tc call).
Proof.
  intros C F M. unfold getUnwantedTags, signaturePath, symbolPath.
  rewrite C, F, M. simpl.
  now destruct (getSignatureUnwantedTags options utils
                  (getResolvedSignature tc call)).
Qed.

(** X14 at the call [helloWorld("x")] of the documented function. *)
Lemma call_of_function_reads_signature_only_witness :
  getUnwantedTags Samples.contactArchitecture Samples.plainUtils
    Samples.checkerCall Samples.calledHello Samples.callHello
  = Some "Ping the owning team first".
Proof.
  rewrite (call_of_function_reads_signature_only
             Samples.contactArchitecture Samples.plainUtils
             Samples.checkerCall Samples.calledHello Samples.callHello
             Samples.callHello Samples.symbolHello eq_refl eq_refl eq_refl).
  reflexivity.
Defined.
